(** * The MIDI controller hook ([useController]) and its value pipeline

    Shallow embedding of [src/hooks/useMidiController.ts] (the compact hook),
    of the older, verbose hook kept in [src/components/UC33eController.tsx],
    and of the shipped controller profile [u33e].

    Conventions of the embedding.
    - Numbers are read in exact arithmetic: a JavaScript [number] is a real
      number ([R]), [Math.log] is [ln], [Math.exp] is [exp], [Math.E] is
      [exp 1] and [Math.round] rounds to the nearest integer with ties
      towards plus infinity.  The program itself computes in IEEE-754
      doubles; the module [F64] gives [transformValue] in that arithmetic,
      with the functions of [Math] left to the engine, and is where the two
      readings are told apart.  [NaN] and the infinities are outside the
      exact reading.
    - A JavaScript object used as a dictionary is a [gmap]; an optional field
      ([min?: number]) is an [option]; [undefined] is [None].
    - A hook is the record of its React state cells; every callback of the
      hook (promise continuation, port state change, effect on the debounced
      message) is a function on that record.  Console output is appended to a
      log kept in the record.  When React runs a callback is the
      environment's choice: a run of the hook is a list of events, and one
      [Debounced] event is one run of the effect on the debounced message.
      React runs that effect when [useDebounce] yields a new message and
      again whenever another dependency of the effect has changed; in the
      verbose hook [transformValue] is such a dependency and is a new function
      at every render unless the caller keeps [valueTransformers] the same
      object, so one delivered message can stand for several [Debounced]
      events in a row.
    - An exception that nothing catches ends the run: a callback that may
      let one escape returns an [option]. *)

From Stdlib Require Import Reals Lra Lia ZArith Floats.
From stdpp Require Import gmap strings list pretty.

Local Open Scope R_scope.

(** ** JavaScript numbers *)

Module JS.

(** [Math.round(x)]: the integer closest to [x], ties towards plus
    infinity, that is the floor of [x + 1/2]. *)
Definition Math_round (x : R) : R := IZR (Int_part (x + / 2)).

Definition Math_log (x : R) : R := ln x.
Definition Math_exp (x : R) : R := exp x.
Definition Math_E : R := exp 1.

(** Truthiness of a possibly absent number: [undefined] and [0] are falsy. *)
Definition truthy_number (o : option R) : option R :=
  match o with
  | Some x => if Req_dec_T x 0 then None else Some x
  | None => None
  end.

(** Truthiness of a possibly absent boolean. *)
Definition truthy_bool (o : option bool) : bool :=
  match o with
  | Some b => b
  | None => false
  end.

(** Truthiness of a possibly absent string: [undefined] and the empty
    string are falsy. *)
Definition truthy_string (o : option string) : option string :=
  match o with
  | Some s => if decide (s = EmptyString) then None else Some s
  | None => None
  end.

(** Destructuring default [{ x = d }]: applies when the field is absent. *)
Definition or_default {A} (d : A) (o : option A) : A :=
  match o with
  | Some x => x
  | None => d
  end.

End JS.

(** ** Type definitions shared by the two hooks *)

Inductive Curve := linear | logarithmic | exponential.

Record ValueTransformer := {
  min : option R;
  max : option R;
  curve : option Curve;
  step : option R;
  invert : option bool
}.

(** The object literal [{}] as a [ValueTransformer]. *)
Definition empty_transformer : ValueTransformer :=
  {| min := None; max := None; curve := None; step := None; invert := None |}.

Record MIDIControllerAction := {
  controller : string;
  value : R
}.

Inductive MIDIConnectionStatus := disconnected | connected | error.

Inductive MIDIPortConnectionState := open | closed | pending.

Inductive MIDIPortDeviceState := port_disconnected | port_connected.

Record MIDIDeviceInfo := {
  device_id : string;
  device_name : string;
  device_manufacturer : string;
  device_connection : MIDIPortConnectionState
}.

(** A port of the Web MIDI subsystem as the hooks read it; [name] and
    [manufacturer] may be null. *)
Record MIDIPort := {
  port_id : string;
  port_name : option string;
  port_manufacturer : option string;
  port_connection : MIDIPortConnectionState;
  port_state : MIDIPortDeviceState
}.

(** A message event as the hooks read it: the three bytes that
    [const [command, note, velocity] = message.data] binds.  [data = None] is
    an event whose [data] is null, on which that destructuring throws a
    [TypeError].  Events with fewer than three bytes are not modelled. *)
Record MIDIMessageEvent := {
  data : option (Z * Z * Z)
}.

(** [controllers[note][command]]: the outer key is the data1 byte, the inner
    key the status byte. *)
Record UseControllerOptions := {
  controllers : gmap Z (gmap Z string);
  debounceTime : option Z;
  valueTransformers : option (gmap string ValueTransformer)
}.

Inductive ConsoleLevel := level_log | level_warn | level_error.

(** One call of [console.log], [console.warn] or [console.error] with its
    arguments rendered as strings. *)
Record ConsoleEvent := {
  level : ConsoleLevel;
  arguments : list string
}.

(** The React state cells of one mounted hook, and the console output it has
    produced so far (oldest first).  [state], [status] and [connectedDevices]
    are what the hook returns. *)
Record Hook := {
  state : gmap string R;
  status : MIDIConnectionStatus;
  connectedDevices : list MIDIDeviceInfo;
  midiMessage : option MIDIMessageEvent;
  console : list ConsoleEvent
}.

(** The cells at mount: [useReducer(reducer, {})], [useState('disconnected')],
    [useState([])], [useState(null)]. *)
Definition initialHook : Hook :=
  {| state := ∅; status := disconnected; connectedDevices := [];
     midiMessage := None; console := [] |}.

Definition dispatch_with (reducer : gmap string R -> MIDIControllerAction -> gmap string R)
    (action : MIDIControllerAction) (h : Hook) : Hook :=
  {| state := reducer (state h) action; status := status h;
     connectedDevices := connectedDevices h; midiMessage := midiMessage h;
     console := console h |}.

Definition setStatus (s : MIDIConnectionStatus) (h : Hook) : Hook :=
  {| state := state h; status := s;
     connectedDevices := connectedDevices h; midiMessage := midiMessage h;
     console := console h |}.

Definition setConnectedDevices (devices : list MIDIDeviceInfo) (h : Hook) : Hook :=
  {| state := state h; status := status h;
     connectedDevices := devices; midiMessage := midiMessage h;
     console := console h |}.

Definition setMidiMessage (m : MIDIMessageEvent) (h : Hook) : Hook :=
  {| state := state h; status := status h;
     connectedDevices := connectedDevices h; midiMessage := Some m;
     console := console h |}.

Definition console_emit (l : ConsoleLevel) (args : list string) (h : Hook) : Hook :=
  {| state := state h; status := status h;
     connectedDevices := connectedDevices h; midiMessage := midiMessage h;
     console := console h ++ [{| level := l; arguments := args |}] |}.

(** What the environment does to a mounted hook.
    - [AccessGranted inputs]: the promise of [requestMIDIAccess()] resolves,
      the access enumerating [inputs].
    - [AccessDenied]: the promise rejects.
    - [StateChange port inputs]: [midiAccess.onstatechange] fires for [port]
      while the access enumerates [inputs].
    - [Message m]: [onmidimessage] fires on a subscribed input.
    - [Debounced m]: the effect on [debouncedMessage] runs with [m] as the
      debounced message, because [useDebounce] has yielded [m] or because
      React runs the effect again on the same [m]. *)
Inductive Event :=
  | AccessGranted (inputs : list MIDIPort)
  | AccessDenied
  | StateChange (port : MIDIPort) (inputs : list MIDIPort)
  | Message (m : MIDIMessageEvent)
  | Debounced (m : option MIDIMessageEvent).

(** [controllers[note]?.[command]] *)
Definition lookup_controller (controllers : gmap Z (gmap Z string))
    (note command : Z) : option string :=
  controllers !! note ≫= (.!! command).

Definition deviceState_string (s : MIDIPortDeviceState) : string :=
  match s with
  | port_connected => "connected"
  | port_disconnected => "disconnected"
  end.

(** What [useController] returns. *)
Record UseControllerReturn := {
  ret_state : gmap string R;
  ret_status : MIDIConnectionStatus;
  ret_connectedDevices : list MIDIDeviceInfo
}.

Definition returned (h : Hook) : UseControllerReturn :=
  {| ret_state := state h; ret_status := status h;
     ret_connectedDevices := connectedDevices h |}.

(** Whether the body of the effect on [debouncedMessage] throws: it does when
    the array destructuring meets null data. *)
Definition throws (debouncedMessage : option MIDIMessageEvent) : bool :=
  match debouncedMessage with
  | Some {| data := None |} => true
  | _ => false
  end.

Definition event_throws (e : Event) : bool :=
  match e with
  | Debounced m => throws m
  | _ => false
  end.

(** The record both hooks build for one input port. *)
Definition device_of_port (input : MIDIPort) : MIDIDeviceInfo :=
  {| device_id := port_id input;
     device_name :=
       JS.or_default "Unknown Device" (JS.truthy_string (port_name input));
     device_manufacturer :=
       JS.or_default "Unknown Manufacturer"
         (JS.truthy_string (port_manufacturer input));
     device_connection := port_connection input |}.

(** The status a port state change sets. *)
Definition status_of_port_state (s : MIDIPortDeviceState) : MIDIConnectionStatus :=
  match s with
  | port_connected => connected
  | port_disconnected => disconnected
  end.

(** ** The compact hook, [src/hooks/useMidiController.ts] *)

Module Compact.

Definition applyCurve (value : R) (curve : Curve) : R :=
  match curve with
  | logarithmic => JS.Math_log (1 + value * 9) / JS.Math_log 10
  | exponential => (JS.Math_exp value - 1) / (JS.Math_E - 1)
  | linear => value
  end.

Definition reducer (state : gmap string R) (action : MIDIControllerAction)
  : gmap string R :=
  <[controller action := value action]> state.

Definition transformValue (valueTransformers : gmap string ValueTransformer)
    (controller : string) (rawValue : R) : R :=
  match valueTransformers !! controller with
  | None => rawValue
  | Some transformer =>
      let min := JS.or_default 0 (min transformer) in
      let max := JS.or_default 1 (max transformer) in
      let curve := JS.or_default linear (curve transformer) in
      let value :=
        if JS.truthy_bool (invert transformer) then 1 - rawValue else rawValue in
      let value := applyCurve value curve in
      let value := min + (max - min) * value in
      match JS.truthy_number (step transformer) with
      | Some step => JS.Math_round (value / step) * step
      | None => value
      end
  end.

Definition onMIDIMessage (message : MIDIMessageEvent) (h : Hook) : Hook :=
  setMidiMessage message h.

(** The effect on [debouncedMessage].  Nothing catches the [TypeError] of
    destructuring null data: the result is [None] when it escapes. *)
Definition processDebounced (o : UseControllerOptions)
    (debouncedMessage : option MIDIMessageEvent) (h : Hook) : option Hook :=
  match debouncedMessage with
  | None => Some h
  | Some message =>
      match data message with
      | None => None
      | Some (command, note, velocity) =>
          match JS.truthy_string (lookup_controller (controllers o) note command) with
          | Some controllerMap =>
              let rawValue :=
                JS.Math_round (IZR velocity / 127 * 1000) / 1000 in
              let transformedValue :=
                transformValue (JS.or_default ∅ (valueTransformers o))
                  controllerMap rawValue in
              Some (dispatch_with reducer
                      {| controller := controllerMap; value := transformedValue |} h)
          | None => Some h
          end
      end
  end.

Definition updateDevices (inputs : list MIDIPort) (h : Hook) : Hook :=
  let devices :=
    map (fun input =>
           {| device_id := port_id input;
              device_name :=
                JS.or_default "Unknown Device" (JS.truthy_string (port_name input));
              device_manufacturer :=
                JS.or_default "Unknown Manufacturer"
                  (JS.truthy_string (port_manufacturer input));
              device_connection := port_connection input |}) inputs in
  setConnectedDevices devices h.

(** The [then] continuation of [requestMIDIAccess()]. *)
Definition onAccess (inputs : list MIDIPort) (h : Hook) : Hook :=
  updateDevices inputs (setStatus connected h).

Definition onstatechange (port : MIDIPort) (inputs : list MIDIPort) (h : Hook) : Hook :=
  updateDevices inputs
    (setStatus
       (match port_state port with
        | port_connected => connected
        | port_disconnected => disconnected
        end) h).

(** The [catch] continuation of [requestMIDIAccess()]. *)
Definition onAccessDenied (h : Hook) : Hook :=
  setStatus error (console_emit level_log ["MIDI access denied"] h).

Definition step (o : UseControllerOptions) (h : Hook) (e : Event) : option Hook :=
  match e with
  | AccessGranted inputs => Some (onAccess inputs h)
  | AccessDenied => Some (onAccessDenied h)
  | StateChange port inputs => Some (onstatechange port inputs h)
  | Message m => Some (onMIDIMessage m h)
  | Debounced m => processDebounced o m h
  end.

Fixpoint run (o : UseControllerOptions) (h : Hook) (es : list Event) : option Hook :=
  match es with
  | [] => Some h
  | e :: es =>
      match step o h e with
      | Some h' => run o h' es
      | None => None
      end
  end.

End Compact.

(** ** The verbose hook, second part of [src/components/UC33eController.tsx] *)

Module Verbose.

Definition applyCurveTransformation (value : R) (curve : Curve) : R :=
  match curve with
  | logarithmic => JS.Math_log (1 + value * 9) / JS.Math_log 10
  | exponential => (JS.Math_exp value - 1) / (JS.Math_E - 1)
  | _ => value
  end.

Definition reducer (state : gmap string R) (action : MIDIControllerAction)
  : gmap string R :=
  <[controller action := value action]> state.

Definition transformValue (valueTransformers : gmap string ValueTransformer)
    (controller : string) (rawValue : R) : R :=
  match valueTransformers !! controller with
  | None => rawValue
  | Some transformer =>
      let min := JS.or_default 0 (min transformer) in
      let max := JS.or_default 1 (max transformer) in
      let curve := JS.or_default linear (curve transformer) in
      let value :=
        if JS.truthy_bool (invert transformer) then 1 - rawValue else rawValue in
      let value := applyCurveTransformation value curve in
      let value := min + (max - min) * value in
      match JS.truthy_number (step transformer) with
      | Some step => JS.Math_round (value / step) * step
      | None => value
      end
  end.

Definition onMIDIMessage (message : MIDIMessageEvent) (h : Hook) : Hook :=
  setMidiMessage message h.

(** The effect on [debouncedMessage]: its body runs inside [try], and the
    [catch] logs the error and sets the status. *)
Definition processDebounced (o : UseControllerOptions)
    (debouncedMessage : option MIDIMessageEvent) (h : Hook) : Hook :=
  match debouncedMessage with
  | None => h
  | Some message =>
      match data message with
      | None =>
          setStatus error
            (console_emit level_error
               ["Error processing MIDI message:"; "TypeError"] h)
      | Some (command, note, velocity) =>
          match JS.truthy_string (lookup_controller (controllers o) note command) with
          | None =>
              console_emit level_warn
                ["No controller mapping found for note " +:+ pretty note
                   +:+ " and command " +:+ pretty command] h
          | Some controllerMap =>
              let rawValue :=
                JS.Math_round (IZR velocity / 127 * 1000) / 1000 in
              let transformedValue :=
                transformValue (JS.or_default ∅ (valueTransformers o))
                  controllerMap rawValue in
              dispatch_with reducer
                {| controller := controllerMap; value := transformedValue |} h
          end
      end
  end.

Definition updateConnectedDevices (inputs : list MIDIPort) (h : Hook) : Hook :=
  let devices :=
    map (fun input =>
           {| device_id := port_id input;
              device_name :=
                JS.or_default "Unknown Device" (JS.truthy_string (port_name input));
              device_manufacturer :=
                JS.or_default "Unknown Manufacturer"
                  (JS.truthy_string (port_manufacturer input));
              device_connection := port_connection input |}) inputs in
  setConnectedDevices devices h.

(** The [then] continuation of [requestMIDIAccess()]. *)
Definition onAccess (inputs : list MIDIPort) (h : Hook) : Hook :=
  updateConnectedDevices inputs (setStatus connected h).

Definition onstatechange (port : MIDIPort) (inputs : list MIDIPort) (h : Hook) : Hook :=
  let newStatus :=
    match port_state port with
    | port_connected => connected
    | port_disconnected => disconnected
    end in
  console_emit level_log
    ["MIDI port " +:+ JS.or_default "null" (port_name port) +:+ " "
       +:+ deviceState_string (port_state port) +:+ ":";
     JS.or_default "null" (port_manufacturer port)]
    (updateConnectedDevices inputs (setStatus newStatus h)).

(** The [catch] continuation of [requestMIDIAccess()]. *)
Definition onAccessDenied (h : Hook) : Hook :=
  setStatus error
    (console_emit level_log ["Could not access your MIDI devices."] h).

Definition step (o : UseControllerOptions) (h : Hook) (e : Event) : Hook :=
  match e with
  | AccessGranted inputs => onAccess inputs h
  | AccessDenied => onAccessDenied h
  | StateChange port inputs => onstatechange port inputs h
  | Message m => onMIDIMessage m h
  | Debounced m => processDebounced o m h
  end.

(** Every run of the effect is an event of its own: a message on which
    React runs the effect several times appears as several [Debounced]
    events. *)
Definition run (o : UseControllerOptions) (h : Hook) (es : list Event) : Hook :=
  foldl (step o) h es.

End Verbose.

(** ** The shipped profile, [u33e] in [src/components/UC33eController.tsx] *)

Definition u33e : gmap Z (gmap Z string) :=
  list_to_map
    [ (13%Z, list_to_map
         [ (176%Z, "C26"); (177%Z, "C27"); (178%Z, "C28"); (179%Z, "C29");
           (180%Z, "C30"); (181%Z, "C31"); (182%Z, "C31"); (183%Z, "C33") ]);
      (12%Z, list_to_map
         [ (176%Z, "C18"); (177%Z, "C19"); (178%Z, "C20"); (179%Z, "C21");
           (180%Z, "C22"); (181%Z, "C23"); (182%Z, "C24"); (183%Z, "C25") ]);
      (10%Z, list_to_map
         [ (176%Z, "C10"); (177%Z, "C11"); (178%Z, "C12"); (179%Z, "C13");
           (180%Z, "C14"); (181%Z, "C15"); (182%Z, "C16"); (183%Z, "C17") ]);
      (7%Z, list_to_map
         [ (176%Z, "F1"); (177%Z, "F2"); (178%Z, "F3"); (179%Z, "F4");
           (180%Z, "F5"); (181%Z, "F6"); (182%Z, "F7"); (183%Z, "F8") ]);
      (28%Z, list_to_map [ (176%Z, "F9") ]) ].

(** The (status byte, data1 byte, identifier) triples of a profile, and the
    identifiers it names, with repetitions. *)
Definition profile_entries (m : gmap Z (gmap Z string)) : list (Z * Z * string) :=
  flat_map (fun '(note, inner) =>
              map (fun '(command, c) => (command, note, c)) (map_to_list inner))
           (map_to_list m).

Definition profile_identifiers (m : gmap Z (gmap Z string)) : list string :=
  map snd (profile_entries m).

(** The identifiers the rendering components draw and the profile is
    described as naming: [C10] to [C33], [F1] to [F8], and [F9]. *)
Definition surface_identifiers : list string :=
  [ "C10"; "C11"; "C12"; "C13"; "C14"; "C15"; "C16"; "C17";
    "C18"; "C19"; "C20"; "C21"; "C22"; "C23"; "C24"; "C25";
    "C26"; "C27"; "C28"; "C29"; "C30"; "C31"; "C32"; "C33";
    "F1"; "F2"; "F3"; "F4"; "F5"; "F6"; "F7"; "F8"; "F9" ].

(** ** The value pipeline as the specification words it

    Section 4.2 of the specification: quantised raw value, then invert, curve,
    affine map and step quantisation, each as a function of its own. *)

Module Pipeline.

Definition rawNormalized (velocity : Z) : R :=
  JS.Math_round (IZR velocity / 127 * 1000) / 1000.

Definition invert_step (inv : bool) (v : R) : R :=
  if inv then 1 - v else v.

Definition curve_step (c : Curve) (v : R) : R :=
  match c with
  | linear => v
  | logarithmic => ln (1 + 9 * v) / ln 10
  | exponential => (exp v - 1) / (exp 1 - 1)
  end.

Definition affine_step (lo hi : R) (v : R) : R := lo + (hi - lo) * v.

(** Quantisation whenever a step is configured and is not zero. *)
Definition quantize_nonzero_step (s : option R) (v : R) : R :=
  match s with
  | Some s => if Req_dec_T s 0 then v else JS.Math_round (v / s) * s
  | None => v
  end.

Definition cfg_min (t : ValueTransformer) : R := JS.or_default 0 (min t).
Definition cfg_max (t : ValueTransformer) : R := JS.or_default 1 (max t).
Definition cfg_curve (t : ValueTransformer) : Curve := JS.or_default linear (curve t).
Definition cfg_invert (t : ValueTransformer) : bool := JS.or_default false (invert t).

Definition transform_with (quantize : option R -> R -> R)
    (t : ValueTransformer) (raw : R) : R :=
  quantize (step t)
    (affine_step (cfg_min t) (cfg_max t)
       (curve_step (cfg_curve t) (invert_step (cfg_invert t) raw))).

(** A Value Transformer Config of the data model: [min < max], and a step,
    when there is one, is positive. *)
Definition valid (t : ValueTransformer) : Prop :=
  cfg_min t < cfg_max t /\
  match step t with
  | Some s => 0 < s
  | None => True
  end.

End Pipeline.

(** ** The debounce stage *)

Module Debounce.

Section Stage.

Context {A : Type}.

(** The window, in milliseconds. *)
Variable w : Z.

(** Modelled from the spec: the hook [useDebounce] of the package
    [@uidotdev/usehooks], which both hooks call on [midiMessage], is not part
    of the sources.  After sections 4.3 and 5 of the specification the stage
    is timer driven and holds at most one pending event, with the time its
    window ends.  [delivered] lists the deliveries in order, each with its
    time. *)
Record Stage := {
  held : option (Z * A);
  delivered : list (Z * A)
}.

Definition idle : Stage := {| held := None; delivered := [] |}.

(** Modelled from the spec: time reaches [now]; a pending event whose window
    has elapsed by then is delivered, at the end of its window. *)
Definition elapse (now : Z) (s : Stage) : Stage :=
  match held s with
  | Some (deadline, x) =>
      if (deadline <=? now)%Z
      then {| held := None; delivered := delivered s ++ [(deadline, x)] |}
      else s
  | None => s
  end.

(** Modelled from the spec: an event arrives at [now]; it cancels the
    pending delivery and starts a new window. *)
Definition arrive (now : Z) (x : A) (s : Stage) : Stage :=
  let s := elapse now s in
  {| held := Some ((now + w)%Z, x); delivered := delivered s |}.

Definition feed (s : Stage) (events : list (Z * A)) : Stage :=
  foldl (fun s '(t, x) => arrive t x s) s events.

(** Modelled from the spec: no further event arrives; the pending event, if
    any, is delivered when its window has elapsed. *)
Definition settle (s : Stage) : Stage :=
  match held s with
  | Some (deadline, x) =>
      {| held := None; delivered := delivered s ++ [(deadline, x)] |}
  | None => s
  end.

(** Arrival times increase, each less than a window after the one before,
    starting after [t]. *)
Fixpoint burst (t : Z) (events : list (Z * A)) : Prop :=
  match events with
  | [] => True
  | (t', _) :: events => (t < t' < t + w)%Z /\ burst t' events
  end.

End Stage.

Arguments Stage : clear implicits.

End Debounce.


(** ** Concrete inputs used by the examples *)

Definition sample_transformer : ValueTransformer :=
  {| min := Some 0; max := Some 10; curve := Some logarithmic;
     step := Some 1; invert := Some true |}.

(** A transformer with [step: 0]. *)
Definition zero_step_transformer : ValueTransformer :=
  {| min := None; max := None; curve := None; step := Some 0; invert := None |}.

(** A transformer with [min: 1, max: 0]. *)
Definition inverted_range_transformer : ValueTransformer :=
  {| min := Some 1; max := Some 0; curve := None; step := None; invert := None |}.

Definition sample_options : UseControllerOptions :=
  {| controllers := u33e; debounceTime := Some 16%Z;
     valueTransformers := Some {[ "C26" := sample_transformer ]} |}.

(** The options of the component [UC33eController]: the profile and a
    debounce time, no transformer. *)
Definition plain_options : UseControllerOptions :=
  {| controllers := u33e; debounceTime := Some 16%Z;
     valueTransformers := None |}.

Definition inverted_range_options : UseControllerOptions :=
  {| controllers := u33e; debounceTime := Some 16%Z;
     valueTransformers := Some {[ "C26" := inverted_range_transformer ]} |}.

Definition plugged : MIDIPort :=
  {| port_id := "input-0"; port_name := Some "UC-33 USB MIDI Controller";
     port_manufacturer := Some "Evolution"; port_connection := open;
     port_state := port_connected |}.

Definition unplugged : MIDIPort :=
  {| port_id := "input-0"; port_name := Some "UC-33 USB MIDI Controller";
     port_manufacturer := Some "Evolution"; port_connection := closed;
     port_state := port_disconnected |}.

Definition message (command note velocity : Z) : MIDIMessageEvent :=
  {| data := Some (command, note, velocity) |}.

Definition null_data_message : MIDIMessageEvent := {| data := None |}.

Ltac unfold_pipeline :=
  unfold Pipeline.transform_with, Pipeline.quantize_nonzero_step,
    Pipeline.affine_step, Pipeline.curve_step,
    Pipeline.invert_step, Pipeline.cfg_min, Pipeline.cfg_max,
    Pipeline.cfg_curve, Pipeline.cfg_invert.



(** A port plugged in after the access was granted. *)
Definition late_port : MIDIPort :=
  {| port_id := "input-1"; port_name := Some "Keystation";
     port_manufacturer := None; port_connection := open;
     port_state := port_connected |}.


(** ** [transformValue] in double precision

    The same function as [Compact.transformValue], computed in IEEE-754
    binary64 as the program computes it.  Addition, subtraction,
    multiplication and division are those of the kernel's floats; the
    functions of [Math] are the engine's and are taken as given. *)

Module F64.

Record MathLibrary := {
  Math_log : float -> float;
  Math_exp : float -> float;
  Math_E : float;
  Math_round : float -> float
}.

Record ValueTransformer := {
  min : option float;
  max : option float;
  curve : option Curve;
  step : option float;
  invert : option bool
}.

(** Truthiness of a possibly absent number: [undefined], [0], [-0] and
    [NaN] are falsy. *)
Definition truthy_number (o : option float) : option float :=
  match o with
  | Some x => if (PrimFloat.eqb x 0 || PrimFloat.is_nan x)%bool then None else Some x
  | None => None
  end.

Definition applyCurve (M : MathLibrary) (value : float) (curve : Curve) : float :=
  match curve with
  | logarithmic => (Math_log M (1 + value * 9) / Math_log M 10)%float
  | exponential => ((Math_exp M value - 1) / (Math_E M - 1))%float
  | linear => value
  end.

Definition transformValue (M : MathLibrary)
    (valueTransformers : gmap string ValueTransformer)
    (controller : string) (rawValue : float) : float :=
  match valueTransformers !! controller with
  | None => rawValue
  | Some transformer =>
      let min := JS.or_default 0%float (min transformer) in
      let max := JS.or_default 1%float (max transformer) in
      let curve := JS.or_default linear (curve transformer) in
      let value :=
        if JS.truthy_bool (invert transformer)
        then (1 - rawValue)%float else rawValue in
      let value := applyCurve M value curve in
      let value := (min + (max - min) * value)%float in
      match truthy_number (step transformer) with
      | Some step => (Math_round M (value / step) * step)%float
      | None => value
      end
  end.

End F64.

(** ** The rendering consumers

    [KnobControl] and [FaderControl] of
    [src/components/UC33eController.tsx], their later versions in
    [src/components/UC33e/], and the effect of the component
    [UC33eController] of [src/components/UC33e/UC33eController.tsx] that
    tracks the control to highlight. *)

Module Render.

(** The prop [value={state[id] || 0}]. *)
Definition control_value (state : gmap string R) (id : string) : R :=
  JS.or_default 0 (JS.truthy_number (state !! id)).

(** [KnobControl] of [src/components/UC33eController.tsx]:
    [rotation = value * 270]. *)
Definition KnobControl_rotation_simple (value : R) : R := value * 270.

(** [KnobControl] of [src/components/UC33e/]:
    [rotation = -135 + value * 270]. *)
Definition KnobControl_rotation (value : R) : R := -135 + value * 270.

(** [FaderControl]: the height, in percent, [value * 100]. *)
Definition FaderControl_height (value : R) : R := value * 100.

(** [const isConnected = status === 'connected'] *)
Definition isConnected (status : MIDIConnectionStatus) : bool :=
  match status with
  | connected => true
  | _ => false
  end.

(** The cells [previousState] and [lastChangedId] of [UC33eController]. *)
Record Highlight := {
  previousState : gmap string R;
  lastChangedId : string
}.

Definition initialHighlight : Highlight :=
  {| previousState := ∅; lastChangedId := EmptyString |}.

(** [state[key] !== previousState[key]], either side possibly undefined. *)
Definition strict_neq (a b : option R) : bool :=
  match a, b with
  | Some x, Some y => if Req_dec_T x y then false else true
  | None, None => false
  | _, _ => true
  end.

(** The effect on [[isConnected, state]].  [keys] stands for
    [Object.keys(state)], whose order a [gmap] does not record. *)
Definition highlight_effect (keys : list string) (status : MIDIConnectionStatus)
    (state : gmap string R) (hl : Highlight) : Highlight :=
  if isConnected status then
    let changedId :=
      List.find (fun key => strict_neq (state !! key) (previousState hl !! key))
        keys in
    {| previousState := state;
       lastChangedId :=
         match JS.truthy_string changedId with
         | Some id => id
         | None => lastChangedId hl
         end |}
  else hl.

End Render.

(** ** The synthesizer consumer, [Synth] in [src/unnamed/part_000] *)

Module Synth.

(** What the effect on [[state]] writes into the Tone.js nodes, once they
    exist. *)
Record Params := {
  volume : R;
  detune : R;
  filter_frequency : R;
  filter_Q : R;
  filter_gain : R;
  lfo_frequency : R;
  lfo_amplitude : R;
  distortion : R;
  distortion_wet : R;
  delay_delayTime : R;
  delay_feedback : R;
  delay_wet : R;
  reverb_decay : R;
  reverb_preDelay : R;
  reverb_wet : R
}.

(** [typeof x === 'number' ? f(x) : d] *)
Definition number_or (x : option R) (f : R -> R) (d : R) : R :=
  match x with
  | Some x => f x
  | None => d
  end.

Definition params (state : gmap string R) : Params :=
  {| volume := number_or (state !! "C26") (fun x => x * 24 - 12) 0;
     detune := number_or (state !! "C27") (fun x => x * 100 - 50) 0;
     filter_frequency := number_or (state !! "C29") (fun x => 20 + x * 19980) 1000;
     filter_Q := number_or (state !! "C30") (fun x => x * 10) 1;
     filter_gain := number_or (state !! "C31") (fun x => x * 24 - 12) 0;
     lfo_frequency := number_or (state !! "C32") (fun x => x * 20) 1;
     lfo_amplitude := number_or (state !! "C33") (fun x => x) 0;
     distortion := number_or (state !! "F1") (fun x => x) 0;
     distortion_wet := number_or (state !! "F2") (fun x => x) 0;
     delay_delayTime := number_or (state !! "F3") (fun x => x) 0;
     delay_feedback := number_or (state !! "F4") (fun x => x) 0;
     delay_wet := number_or (state !! "F5") (fun x => x) 0;
     reverb_decay := number_or (state !! "F6") (fun x => x * 10) 1;
     reverb_preDelay := number_or (state !! "F7") (fun x => x * / 10) 0;
     reverb_wet := number_or (state !! "F8") (fun x => x) 0 |}.

End Synth.

(** ** Subscription of the message handler

    The effect that initialises MIDI keeps the inputs it subscribed in the
    variable [midiInputs] of its closure, and sets [onmidimessage] on the
    port objects, which outlive the hook.  Ports are told apart by their
    id. *)

Module Subscription.

Record Subscribed := {
  midiInputs : list string;
  handlers : gset string
}.

(** [let midiInputs = []], and no port carries the handler yet. *)
Definition initial : Subscribed := {| midiInputs := []; handlers := ∅ |}.

(** In the [then] continuation: [midiInputs = Array.from(inputs.values())],
    then [input.onmidimessage = onMIDIMessage] for each. *)
Definition on_access (inputs : list MIDIPort) (s : Subscribed) : Subscribed :=
  {| midiInputs := map port_id inputs;
     handlers := handlers s ∪ list_to_set (map port_id inputs) |}.

(** The cleanup of the effect: [input.onmidimessage = null] for each of
    [midiInputs]. *)
Definition cleanup (s : Subscribed) : Subscribed :=
  {| midiInputs := midiInputs s;
     handlers := handlers s ∖ list_to_set (midiInputs s) |}.

(** What happens to a mounted hook and its subscriptions. *)
Inductive SessionEvent :=
  | Hooked (e : Event)
  | Cleanup.

Definition step (s : Subscribed) (e : SessionEvent) : Subscribed :=
  match e with
  | Hooked (AccessGranted inputs) => on_access inputs s
  | Hooked _ => s
  | Cleanup => cleanup s
  end.

Definition run (s : Subscribed) (es : list SessionEvent) : Subscribed :=
  foldl step s es.

(** Whether a message of the port [id] reaches [onMIDIMessage]. *)
Definition receives (s : Subscribed) (id : string) : bool :=
  bool_decide (id ∈ handlers s).

(** The inputs granted in the course of a run. *)
Definition granted_ids (es : list SessionEvent) : list string :=
  flat_map (fun e => match e with
                     | Hooked (AccessGranted inputs) => map port_id inputs
                     | _ => []
                     end) es.

End Subscription.

(** ** Predicates used by the statements *)

(** A debounced message carries a MIDI data byte as its velocity. *)
Definition velocity_ok (e : Event) : Prop :=
  match e with
  | Debounced (Some {| data := Some (_, _, velocity) |}) => (0 <= velocity <= 127)%Z
  | _ => True
  end.

(** Every stored value lies in the unit interval. *)
Definition unit_state (state : gmap string R) : Prop :=
  forall (k : string) (v : R), state !! k = Some v -> 0 <= v <= 1.


Definition is_access_denied (e : Event) : bool :=
  match e with
  | AccessDenied => true
  | _ => false
  end.

(** The events that write [status] or [connectedDevices] in the verbose
    hook, and those that write [state]. *)
Definition writes_connection (e : Event) : bool :=
  match e with
  | AccessGranted _ | AccessDenied | StateChange _ _ => true
  | Debounced m => throws m
  | Message _ => false
  end.

Definition writes_state (e : Event) : bool :=
  match e with
  | Debounced _ => true
  | _ => false
  end.

(** The pair a debounced message stores, if any, and the store itself. *)
Definition stored_by (o : UseControllerOptions) (e : Event) : option (string * R) :=
  match e with
  | Debounced (Some {| data := Some (command, note, velocity) |}) =>
      match JS.truthy_string (lookup_controller (controllers o) note command) with
      | Some c =>
          Some (c, Compact.transformValue (JS.or_default ∅ (valueTransformers o)) c
                     (Pipeline.rawNormalized velocity))
      | None => None
      end
  | _ => None
  end.

Definition store (p : option (string * R)) (state : gmap string R) : gmap string R :=
  match p with
  | Some (c, v) => <[c := v]> state
  | None => state
  end.

(** [h'] is what one of the two hooks has made of [h] after the events
    [es]. *)
Definition reaches (o : UseControllerOptions) (h : Hook) (es : list Event)
    (h' : Hook) : Prop :=
  h' = Verbose.run o h es \/ Compact.run o h es = Some h'.

Set Warnings "-inexact-float".


(** The transformer [{ step: 0.1 }], in double precision. *)
Definition tenth_step_transformer : F64.ValueTransformer :=
  {| F64.min := None; F64.max := None;
     F64.curve := None; F64.step := Some 0.1%float; F64.invert := None |}.
(** * Verification *)

(** ** Rounding *)


Lemma Math_round_unique (x : R) (z : Z) :
  x - / 2 < IZR z <= x + / 2 -> JS.Math_round x = IZR z.
Proof.
  intros [Hlo Hhi]. unfold JS.Math_round. f_equal. symmetry.
  apply Int_part_spec. split; lra.
Qed.

(** [Math.round] of a fraction, by integer division. *)
Lemma Math_round_fraction (a b : Z) :
  (0 < b)%Z ->
  JS.Math_round (IZR a / IZR b) = IZR ((2 * a + b) / (2 * b))%Z.
Proof.
  intros Hb. apply Math_round_unique.
  assert (HbR : 0 < IZR b) by (apply (IZR_lt 0); lia).
  pose proof (Z.div_mod (2 * a + b) (2 * b) ltac:(lia)) as Hdm.
  pose proof (Z.mod_pos_bound (2 * a + b) (2 * b) ltac:(lia)) as [Hm0 Hm1].
  set (q := ((2 * a + b) / (2 * b))%Z) in *.
  set (r := ((2 * a + b) mod (2 * b))%Z) in *.
  assert (Hq : 2 * IZR a + IZR b = 2 * IZR b * IZR q + IZR r).
  { rewrite <- !mult_IZR, <- !plus_IZR. f_equal. exact Hdm. }
  apply IZR_le in Hm0. apply IZR_lt in Hm1. rewrite mult_IZR in Hm1.
  assert (Hx : IZR a / IZR b = IZR q + IZR r / (2 * IZR b) - / 2).
  { field_simplify_eq; [ | lra]. lra. }
  assert (Hr0 : 0 <= IZR r / (2 * IZR b)).
  { apply Rmult_le_pos; [exact Hm0 | ]. left. apply Rinv_0_lt_compat. lra. }
  assert (Hr1 : IZR r / (2 * IZR b) < 1).
  { apply Rmult_lt_reg_r with (2 * IZR b); [lra | ].
    unfold Rdiv. rewrite Rmult_assoc, Rinv_l; lra. }
  rewrite Hx. clearbody q r. split; lra.
Qed.

Lemma rawNormalized_div (velocity : Z) :
  Pipeline.rawNormalized velocity = IZR ((2000 * velocity + 127) / 254)%Z / 1000.
Proof.
  unfold Pipeline.rawNormalized. f_equal.
  replace (IZR velocity / 127 * 1000) with (IZR (1000 * velocity) / IZR 127).
  - rewrite Math_round_fraction by lia. f_equal. f_equal; lia.
  - rewrite mult_IZR. field.
Qed.

Lemma rawNormalized_range (velocity : Z) :
  (0 <= velocity <= 127)%Z -> 0 <= Pipeline.rawNormalized velocity <= 1.
Proof.
  intros Hv. rewrite rawNormalized_div.
  assert (H0 : (0 <= (2000 * velocity + 127) / 254)%Z)
    by (apply Z.div_pos; lia).
  assert (H1 : ((2000 * velocity + 127) / 254 <= 1000)%Z).
  { apply Z.lt_succ_r. apply Z.div_lt_upper_bound; lia. }
  apply IZR_le in H0. apply IZR_le in H1. split; lra.
Qed.

Example rawNormalized_64 : Pipeline.rawNormalized 64 = 0.504.
Proof. rewrite rawNormalized_div. vm_compute Z.div. lra. Qed.

Example rawNormalized_127 : Pipeline.rawNormalized 127 = 1.
Proof. rewrite rawNormalized_div. vm_compute Z.div. lra. Qed.

Example rawNormalized_0 : Pipeline.rawNormalized 0 = 0.
Proof. rewrite rawNormalized_div. vm_compute Z.div. lra. Qed.

(** ** The value transform *)

Lemma Verbose_applyCurve (v : R) (c : Curve) :
  Verbose.applyCurveTransformation v c = Compact.applyCurve v c.
Proof. destruct c; reflexivity. Qed.

Lemma Verbose_transformValue (vt : gmap string ValueTransformer) (c : string) (raw : R) :
  Verbose.transformValue vt c raw = Compact.transformValue vt c raw.
Proof.
  unfold Verbose.transformValue, Compact.transformValue.
  destruct (vt !! c) as [t|]; [ | reflexivity].
  cbv zeta. rewrite Verbose_applyCurve. reflexivity.
Qed.

Lemma applyCurve_curve_step (v : R) (c : Curve) :
  Compact.applyCurve v c = Pipeline.curve_step c v.
Proof.
  destruct c; unfold Compact.applyCurve, Pipeline.curve_step,
    JS.Math_log, JS.Math_exp, JS.Math_E; try reflexivity.
  replace (1 + v * 9) with (1 + 9 * v) by ring. reflexivity.
Qed.

Lemma truthy_bool_default (o : option bool) :
  JS.truthy_bool o = JS.or_default false o.
Proof. destruct o; reflexivity. Qed.

Lemma truthy_number_quantize (s : option R) (v : R) :
  match JS.truthy_number s with
  | Some s => JS.Math_round (v / s) * s
  | None => v
  end = Pipeline.quantize_nonzero_step s v.
Proof.
  unfold JS.truthy_number, Pipeline.quantize_nonzero_step.
  destruct s as [s|]; [ | reflexivity].
  destruct (Req_dec_T s 0); reflexivity.
Qed.

(** The transform of a configured control is the pipeline of the four steps,
    quantising when the step is not zero. *)
Lemma transformValue_configured (vt : gmap string ValueTransformer) (c : string)
    (t : ValueTransformer) (raw : R) :
  vt !! c = Some t ->
  Compact.transformValue vt c raw =
  Pipeline.transform_with Pipeline.quantize_nonzero_step t raw.
Proof.
  intros Hc. unfold Compact.transformValue. rewrite Hc. cbv zeta.
  rewrite truthy_number_quantize, applyCurve_curve_step, truthy_bool_default.
  reflexivity.
Qed.

Lemma transformValue_unconfigured (vt : gmap string ValueTransformer) (c : string) (raw : R) :
  vt !! c = None -> Compact.transformValue vt c raw = raw.
Proof. intros Hc. unfold Compact.transformValue. rewrite Hc. reflexivity. Qed.










(** C10.  A transformer that is present but sets none of its fields (the
    object [{}]) makes [transformValue] the identity on every raw value, in
    both hooks, exactly as when the control has no transformer at all. *)
Theorem empty_config_identity (vt : gmap string ValueTransformer) (c : string) (raw : R) :
  Compact.transformValue (<[c := empty_transformer]> vt) c raw = raw /\
  Verbose.transformValue (<[c := empty_transformer]> vt) c raw = raw /\
  Compact.transformValue (<[c := empty_transformer]> vt) c raw =
    Compact.transformValue (delete c vt) c raw /\
  Verbose.transformValue (<[c := empty_transformer]> vt) c raw =
    Verbose.transformValue (delete c vt) c raw.
Proof.
  assert (He : Compact.transformValue (<[c := empty_transformer]> vt) c raw = raw).
  { unfold Compact.transformValue. rewrite lookup_insert_eq. simpl. ring. }
  assert (Hn : Compact.transformValue (delete c vt) c raw = raw).
  { apply transformValue_unconfigured. apply lookup_delete_eq. }
  pose proof (Verbose_transformValue (<[c := empty_transformer]> vt) c raw) as Hv.
  pose proof (Verbose_transformValue (delete c vt) c raw) as Hd.
  repeat split; congruence.
Qed.


(** Where the two readings part at a tie.  With [{ step: 0.1 }] and the raw
    value 0.15 (velocity 19) the exact quotient [0.15 / 0.1] is the tie 1.5,
    which [Math.round] takes to 2; in doubles the quotient is
    1.4999999999999998, below the tie, and it is this number the engine
    rounds.  Both results are multiples of the step within one step of
    [[min,max]]. *)
Lemma double_quotient_below_tie :
  (forall M : F64.MathLibrary,
     F64.transformValue M {[ "C26" := tenth_step_transformer ]} "C26" 0.15 =
     (F64.Math_round M 1.4999999999999998 * 0.1)%float) /\
  PrimFloat.ltb 1.4999999999999998 1.5 = true /\
  JS.Math_round (15 / 100 / (1 / 10)) = 2.
Proof.
  split; [intros M; vm_compute; reflexivity | ].
  split; [vm_compute; reflexivity | ].
  apply Math_round_unique. split; lra.
Qed.



(** C2.  For a message whose pair is mapped to a control with a transformer,
    the compact hook computes [rawNormalized = round(velocity/127*1000)/1000]
    and stores what the steps make of it in this order: invert, then the
    curve, then the affine map, then, if a step is configured, the
    quantisation [round(value/step)*step].  A step of the data model is
    positive; the statement holds for every step other than 0, which the
    hook takes as no step. *)
Theorem pipeline_steps_in_order (o : UseControllerOptions) (h : Hook)
    (command note velocity : Z) (c : string) (t : ValueTransformer) :
  JS.truthy_string (lookup_controller (controllers o) note command) = Some c ->
  JS.or_default ∅ (valueTransformers o) !! c = Some t ->
  step t <> Some 0 ->
  Compact.processDebounced o (Some (message command note velocity)) h =
  Some (dispatch_with Compact.reducer
          {| controller := c;
             value :=
               let rawNormalized :=
                 JS.Math_round (IZR velocity / 127 * 1000) / 1000 in
               let inverted :=
                 if Pipeline.cfg_invert t then 1 - rawNormalized else rawNormalized in
               let curved :=
                 match Pipeline.cfg_curve t with
                 | linear => inverted
                 | logarithmic => ln (1 + 9 * inverted) / ln 10
                 | exponential => (exp inverted - 1) / (exp 1 - 1)
                 end in
               let mapped :=
                 Pipeline.cfg_min t
                 + (Pipeline.cfg_max t - Pipeline.cfg_min t) * curved in
               match step t with
               | Some s => JS.Math_round (mapped / s) * s
               | None => mapped
               end |} h).
Proof.
  intros Hmap Hcfg Hstep. unfold Compact.processDebounced, message. simpl.
  rewrite Hmap. cbv zeta.
  rewrite (transformValue_configured _ _ _ _ Hcfg).
  unfold Pipeline.transform_with, Pipeline.quantize_nonzero_step,
    Pipeline.affine_step, Pipeline.curve_step, Pipeline.invert_step,
    Pipeline.rawNormalized.
  destruct (step t) as [s|]; [ | reflexivity].
  destruct (Req_dec_T s 0) as [-> | _]; [contradiction | reflexivity].
Qed.

Lemma pipeline_steps_in_order_witness :
  Compact.processDebounced sample_options
    (Some (message 176 13 64)) initialHook =
  Some (dispatch_with Compact.reducer
          {| controller := "C26";
             value :=
               let rawNormalized := JS.Math_round (IZR 64 / 127 * 1000) / 1000 in
               let inverted :=
                 if Pipeline.cfg_invert sample_transformer
                 then 1 - rawNormalized else rawNormalized in
               let curved :=
                 match Pipeline.cfg_curve sample_transformer with
                 | linear => inverted
                 | logarithmic => ln (1 + 9 * inverted) / ln 10
                 | exponential => (exp inverted - 1) / (exp 1 - 1)
                 end in
               let mapped :=
                 Pipeline.cfg_min sample_transformer
                 + (Pipeline.cfg_max sample_transformer
                    - Pipeline.cfg_min sample_transformer) * curved in
               match step sample_transformer with
               | Some s => JS.Math_round (mapped / s) * s
               | None => mapped
               end |} initialHook).
Proof.
  apply (pipeline_steps_in_order sample_options initialHook
           176 13 64 "C26" sample_transformer).
  - vm_compute. reflexivity.
  - reflexivity.
  - simpl. intros [= H]. lra.
Defined.

(** ** The shipped profile *)

Lemma lookup_controller_entry (m : gmap Z (gmap Z string)) (note command : Z) (c : string) :
  lookup_controller m note command = Some c ->
  In (command, note, c) (profile_entries m).
Proof.
  unfold lookup_controller, profile_entries. intros Hl.
  destruct (m !! note) as [inner|] eqn:Hnote; [ | discriminate].
  simpl in Hl. apply in_flat_map.
  exists (note, inner). split.
  - apply list_elem_of_In, elem_of_map_to_list. exact Hnote.
  - apply in_map_iff. exists (command, c). split; [reflexivity | ].
    apply list_elem_of_In, elem_of_map_to_list. exact Hl.
Qed.

Lemma lookup_controller_identifier (m : gmap Z (gmap Z string)) (note command : Z) (c : string) :
  lookup_controller m note command = Some c ->
  In c (profile_identifiers m).
Proof.
  intros Hl. unfold profile_identifiers.
  apply in_map_iff. exists (command, note, c). split; [reflexivity | ].
  apply lookup_controller_entry. exact Hl.
Qed.

Example u33e_C26 : lookup_controller u33e 13 176 = Some "C26".
Proof. vm_compute. reflexivity. Qed.

Example u33e_unmapped : lookup_controller u33e 999 176 = None.
Proof. vm_compute. reflexivity. Qed.

(** C3.  What [u33e] does at the pair (182, 13): it names [C31], which the
    pair (181, 13) names as well, and no pair of the profile names [C32];
    the profile holds 33 pairs and 32 distinct identifiers. *)
Theorem u33e_C32_slip :
  lookup_controller u33e 13 182 = Some "C31" /\
  lookup_controller u33e 13 181 = Some "C31" /\
  (forall note command : Z, lookup_controller u33e note command <> Some "C32") /\
  In "C32" surface_identifiers /\
  length (profile_entries u33e) = 33%nat /\
  length (remove_dups (profile_identifiers u33e)) = 32%nat.
Proof.
  split; [vm_compute; reflexivity | ].
  split; [vm_compute; reflexivity | ].
  split.
  { intros note command Hl. apply lookup_controller_identifier in Hl.
    revert Hl. vm_compute. intuition discriminate. }
  split; [vm_compute; tauto | ].
  split; vm_compute; reflexivity.
Qed.

(** Every other identifier the surface draws is named by the profile. *)
Lemma u33e_other_identifiers :
  forall c : string, In c surface_identifiers -> c <> "C32" ->
    In c (profile_identifiers u33e).
Proof.
  intros c Hin Hne. revert Hin. vm_compute in Hne |- *.
  intuition (subst; try congruence; tauto).
Qed.

(** ** The hooks: port state changes *)

Lemma Compact_updateDevices (inputs : list MIDIPort) (h : Hook) :
  Compact.updateDevices inputs h =
  setConnectedDevices (map device_of_port inputs) h.
Proof. reflexivity. Qed.

Lemma Verbose_updateConnectedDevices (inputs : list MIDIPort) (h : Hook) :
  Verbose.updateConnectedDevices inputs h =
  setConnectedDevices (map device_of_port inputs) h.
Proof. reflexivity. Qed.

Lemma device_ids (inputs : list MIDIPort) :
  map device_id (map device_of_port inputs) = map port_id inputs.
Proof. rewrite map_map. reflexivity. Qed.

(** The claim of C1 fails where a port is unplugged: the access was granted
    and stays valid, yet the state change for the unplugged port sets the
    status to [disconnected], in both hooks. *)
Lemma unplug_sets_status_disconnected :
  status (Compact.onAccess [plugged] initialHook) = connected /\
  status (Compact.onstatechange unplugged []
            (Compact.onAccess [plugged] initialHook)) = disconnected /\
  status (Verbose.onstatechange unplugged []
            (Verbose.onAccess [plugged] initialHook)) = disconnected.
Proof. repeat split; reflexivity. Qed.

(** C1, amended.  A port state change sets the status to [connected] when
    the changed port is connected and to [disconnected] otherwise, whatever
    the status was; it replaces [connectedDevices] by the records of the
    inputs the access enumerates at that moment, so the identifiers in the
    next snapshot are those of the enumerated inputs and a port that is no
    longer enumerated is not among them; the controller state is left as it
    was.  Both hooks agree on this. *)
Theorem statechange_sets_status_from_port (port : MIDIPort)
    (inputs : list MIDIPort) (h : Hook) :
  status (Compact.onstatechange port inputs h) =
    status_of_port_state (port_state port) /\
  status (Verbose.onstatechange port inputs h) =
    status_of_port_state (port_state port) /\
  connectedDevices (Compact.onstatechange port inputs h) =
    map device_of_port inputs /\
  connectedDevices (Verbose.onstatechange port inputs h) =
    map device_of_port inputs /\
  map device_id (connectedDevices (Compact.onstatechange port inputs h)) =
    map port_id inputs /\
  map device_id (connectedDevices (Verbose.onstatechange port inputs h)) =
    map port_id inputs /\
  state (Compact.onstatechange port inputs h) = state h /\
  state (Verbose.onstatechange port inputs h) = state h.
Proof.
  repeat split; try reflexivity; apply device_ids.
Qed.

(** ** The hooks: the effect on the debounced message *)

Lemma Compact_raw_value (velocity : Z) :
  JS.Math_round (IZR velocity / 127 * 1000) / 1000 = Pipeline.rawNormalized velocity.
Proof. reflexivity. Qed.

(** The effect of the compact hook on a message with data. *)
Lemma Compact_processDebounced_data (o : UseControllerOptions) (h : Hook)
    (command note velocity : Z) :
  Compact.processDebounced o (Some (message command note velocity)) h =
  Some match JS.truthy_string (lookup_controller (controllers o) note command) with
       | Some c =>
           dispatch_with Compact.reducer
             {| controller := c;
                value := Compact.transformValue
                           (JS.or_default ∅ (valueTransformers o)) c
                           (Pipeline.rawNormalized velocity) |} h
       | None => h
       end.
Proof.
  unfold Compact.processDebounced, message. simpl.
  destruct (JS.truthy_string _); reflexivity.
Qed.

(** The effect of the verbose hook on a message with data. *)
Lemma Verbose_processDebounced_data (o : UseControllerOptions) (h : Hook)
    (command note velocity : Z) :
  Verbose.processDebounced o (Some (message command note velocity)) h =
  match JS.truthy_string (lookup_controller (controllers o) note command) with
  | Some c =>
      dispatch_with Verbose.reducer
        {| controller := c;
           value := Compact.transformValue
                      (JS.or_default ∅ (valueTransformers o)) c
                      (Pipeline.rawNormalized velocity) |} h
  | None =>
      console_emit level_warn
        ["No controller mapping found for note " +:+ pretty note
           +:+ " and command " +:+ pretty command] h
  end.
Proof.
  unfold Verbose.processDebounced, message. simpl.
  destruct (JS.truthy_string _); [ | reflexivity].
  cbv zeta. rewrite Verbose_transformValue. reflexivity.
Qed.

(** The claim of C4 fails in the verbose hook: the [catch] of the effect sets
    the status to [error] when handling a message throws. *)
Lemma caught_exception_sets_status_error :
  status (Verbose.onAccess [plugged] initialHook) = connected /\
  status (Verbose.processDebounced plain_options (Some null_data_message)
            (Verbose.onAccess [plugged] initialHook)) = error.
Proof. split; reflexivity. Qed.

(** C4, amended.  Handling a message that does not throw, mapped or not,
    leaves the status as it was, in both hooks.  When handling throws, the
    verbose hook catches the exception, logs it at error level, sets the
    status to [error] and leaves the controller state as it was; the compact
    hook does not catch it, and its effect never writes the status.  A denied
    access sets the status to [error] in both hooks. *)
Theorem message_status (o : UseControllerOptions)
    (m : option MIDIMessageEvent) (h : Hook) :
  status (Verbose.processDebounced o m h) =
    (if throws m then error else status h) /\
  (if throws m
   then state (Verbose.processDebounced o m h) = state h /\
        console (Verbose.processDebounced o m h) =
          console h ++ [{| level := level_error;
                           arguments := ["Error processing MIDI message:"; "TypeError"] |}]
   else True) /\
  status <$> Compact.processDebounced o m h =
    (if throws m then None else Some (status h)) /\
  status (Compact.onAccessDenied h) = error /\
  status (Verbose.onAccessDenied h) = error.
Proof.
  destruct m as [[[[[command note] velocity]|]]|]; simpl.
  - repeat split;
      destruct (JS.truthy_string (lookup_controller (controllers o) note command));
      reflexivity.
  - repeat split; reflexivity.
  - repeat split; reflexivity.
Qed.

(** The end-to-end scenario of the shipped profile: the message
    (176, 13, 127) resolves to [C26] and, with no transformer, stores [1]. *)
Example end_to_end_C26 :
  state <$> Compact.processDebounced plain_options
              (Some (message 176 13 127)) initialHook =
  Some {[ "C26" := 1 ]}.
Proof.
  rewrite Compact_processDebounced_data.
  replace (JS.truthy_string (lookup_controller (controllers plain_options) 13 176))
    with (Some "C26") by (vm_compute; reflexivity).
  simpl. unfold Compact.reducer; simpl.
  rewrite transformValue_unconfigured by reflexivity.
  rewrite rawNormalized_127. reflexivity.
Qed.

(** The claim of C5 fails on a transformer with [min: 1, max: 0]: it is not
    a valid config, the hook is mounted with it all the same, and the message
    (176, 13, 127) is transformed under it and stored ([1 + (0 - 1) * 1]). *)
Lemma invalid_config_is_applied :
  ~ Pipeline.valid inverted_range_transformer /\
  state <$> Compact.processDebounced inverted_range_options
              (Some (message 176 13 127)) initialHook =
    Some {[ "C26" := 0 ]}.
Proof.
  split.
  - unfold Pipeline.valid, Pipeline.cfg_min, Pipeline.cfg_max; simpl.
    intros [Hlt _]. lra.
  - rewrite Compact_processDebounced_data.
    replace (JS.truthy_string
               (lookup_controller (controllers inverted_range_options) 13 176))
      with (Some "C26") by (vm_compute; reflexivity).
    simpl. unfold Compact.reducer; simpl.
    rewrite (transformValue_configured _ _ inverted_range_transformer)
      by reflexivity.
    rewrite rawNormalized_127. unfold_pipeline; simpl.
    replace (1 + (0 - 1) * 1) with 0 by ring. reflexivity.
Qed.

Lemma zero_step_is_no_step (t : ValueTransformer) (v : R) :
  step t = Some 0 ->
  Pipeline.quantize_nonzero_step (step t) v = v.
Proof.
  intros ->. simpl. destruct (Req_dec_T 0 0) as [_ | Hne]; [reflexivity | lra].
Qed.

(** C5, amended.  Neither hook validates a transformer: whatever transformer
    the options hold for a control, valid or not, a message mapped to that
    control is transformed under it by the same formulas and the result is
    stored.  A step of [0] acts as no step, so nothing is divided by zero. *)
Theorem any_config_is_applied (o : UseControllerOptions) (h : Hook)
    (command note velocity : Z) (c : string) (t : ValueTransformer) :
  JS.truthy_string (lookup_controller (controllers o) note command) = Some c ->
  JS.or_default ∅ (valueTransformers o) !! c = Some t ->
  Compact.processDebounced o (Some (message command note velocity)) h =
    Some (dispatch_with Compact.reducer
            {| controller := c;
               value := Pipeline.transform_with Pipeline.quantize_nonzero_step t
                          (Pipeline.rawNormalized velocity) |} h) /\
  Verbose.processDebounced o (Some (message command note velocity)) h =
    dispatch_with Verbose.reducer
      {| controller := c;
         value := Pipeline.transform_with Pipeline.quantize_nonzero_step t
                    (Pipeline.rawNormalized velocity) |} h /\
  (forall v : R, Pipeline.quantize_nonzero_step (Some 0) v = v).
Proof.
  intros Hmap Hcfg.
  rewrite Compact_processDebounced_data, Verbose_processDebounced_data, Hmap.
  rewrite (transformValue_configured _ _ _ _ Hcfg).
  repeat split.
  intros v. apply (zero_step_is_no_step zero_step_transformer). reflexivity.
Qed.

Lemma any_config_is_applied_witness :
  Compact.processDebounced inverted_range_options
    (Some (message 176 13 127)) initialHook =
    Some (dispatch_with Compact.reducer
            {| controller := "C26";
               value := Pipeline.transform_with Pipeline.quantize_nonzero_step
                          inverted_range_transformer
                          (Pipeline.rawNormalized 127) |} initialHook) /\
  Verbose.processDebounced inverted_range_options
    (Some (message 176 13 127)) initialHook =
    dispatch_with Verbose.reducer
      {| controller := "C26";
         value := Pipeline.transform_with Pipeline.quantize_nonzero_step
                    inverted_range_transformer
                    (Pipeline.rawNormalized 127) |} initialHook /\
  (forall v : R, Pipeline.quantize_nonzero_step (Some 0) v = v).
Proof.
  apply (any_config_is_applied inverted_range_options initialHook
           176 13 127 "C26" inverted_range_transformer).
  - vm_compute. reflexivity.
  - reflexivity.
Defined.

(** The two hooks on the unmapped pair (176, 999) of the shipped profile. *)
Lemma unmapped_pair_eval :
  Compact.processDebounced plain_options (Some (message 176 999 64)) initialHook =
    Some initialHook /\
  console (Verbose.processDebounced plain_options (Some (message 176 999 64))
             initialHook) =
    [{| level := level_warn;
        arguments :=
          ["No controller mapping found for note 999 and command 176"] |}].
Proof.
  split.
  - rewrite Compact_processDebounced_data.
    replace (JS.truthy_string (lookup_controller (controllers plain_options) 999 176))
      with (@None string) by (vm_compute; reflexivity).
    reflexivity.
  - rewrite Verbose_processDebounced_data.
    replace (JS.truthy_string (lookup_controller (controllers plain_options) 999 176))
      with (@None string) by (vm_compute; reflexivity).
    vm_compute. reflexivity.
Qed.

(** The claim of C7 fails in the compact hook: on the unmapped pair
    (176, 999) it leaves the hook as it was and logs nothing, where the
    verbose hook logs one warning. *)
Lemma compact_unmapped_is_silent :
  lookup_controller u33e 999 176 = None /\
  Compact.processDebounced plain_options (Some (message 176 999 64)) initialHook =
    Some initialHook /\
  console initialHook = [] /\
  console (Verbose.processDebounced plain_options (Some (message 176 999 64))
             initialHook) =
    [{| level := level_warn;
        arguments :=
          ["No controller mapping found for note 999 and command 176"] |}].
Proof.
  destruct unmapped_pair_eval as (Hc & Hv).
  split; [vm_compute; reflexivity | ].
  split; [exact Hc | ]. split; [reflexivity | exact Hv].
Qed.

Lemma replicate_snoc {A : Type} (n : nat) (x : A) :
  replicate n x ++ [x] = x :: replicate n x.
Proof.
  induction n as [| n IH]; [reflexivity | ].
  simpl. rewrite IH. reflexivity.
Qed.

(** The verbose effect run [runs] times on an unmapped message. *)
Lemma Verbose_unmapped_runs (o : UseControllerOptions) (h : Hook)
    (command note velocity : Z) (runs : nat) :
  lookup_controller (controllers o) note command = None ->
  returned (Nat.iter runs
              (Verbose.processDebounced o (Some (message command note velocity))) h) =
    returned h /\
  console (Nat.iter runs
             (Verbose.processDebounced o (Some (message command note velocity))) h) =
    console h ++
      replicate runs
        {| level := level_warn;
           arguments :=
             ["No controller mapping found for note " +:+ pretty note
                +:+ " and command " +:+ pretty command] |}.
Proof.
  intros Hnone. induction runs as [| runs [IHr IHc]].
  - simpl. rewrite app_nil_r. split; reflexivity.
  - set (F := Verbose.processDebounced o (Some (message command note velocity))) in *.
    change (Nat.iter (S runs) F h) with (F (Nat.iter runs F h)).
    unfold F at 1 3. rewrite Verbose_processDebounced_data, Hnone.
    split.
    + exact IHr.
    + unfold console_emit. cbn [console]. rewrite IHc, <- app_assoc.
      rewrite replicate_snoc. reflexivity.
Qed.

(** C7, amended.  For a message whose pair has no entry in the controller
    map, both hooks leave the controller state, the status and the device
    list as they were, however often the effect runs on the message.  The
    compact hook does nothing at all.  The verbose hook appends one warning
    to the console at each run of its effect on the message, and does
    nothing else. *)
Theorem unmapped_message_dropped (o : UseControllerOptions) (h : Hook)
    (command note velocity : Z) (runs : nat) :
  lookup_controller (controllers o) note command = None ->
  Compact.processDebounced o (Some (message command note velocity)) h = Some h /\
  Verbose.processDebounced o (Some (message command note velocity)) h =
    console_emit level_warn
      ["No controller mapping found for note " +:+ pretty note
         +:+ " and command " +:+ pretty command] h /\
  returned (Nat.iter runs
              (Verbose.processDebounced o (Some (message command note velocity))) h) =
    returned h /\
  midiMessage (Verbose.processDebounced o (Some (message command note velocity)) h) =
    midiMessage h /\
  console (Nat.iter runs
             (Verbose.processDebounced o (Some (message command note velocity))) h) =
    console h ++
      replicate runs
        {| level := level_warn;
           arguments :=
             ["No controller mapping found for note " +:+ pretty note
                +:+ " and command " +:+ pretty command] |}.
Proof.
  intros Hnone.
  destruct (Verbose_unmapped_runs o h command note velocity runs Hnone) as [Hr Hc].
  rewrite Compact_processDebounced_data, Verbose_processDebounced_data, Hnone.
  repeat split; assumption.
Qed.

Lemma unmapped_message_dropped_witness :
  Compact.processDebounced plain_options (Some (message 176 999 64)) initialHook =
    Some initialHook /\
  Verbose.processDebounced plain_options (Some (message 176 999 64)) initialHook =
    console_emit level_warn
      ["No controller mapping found for note " +:+ pretty 999%Z
         +:+ " and command " +:+ pretty 176%Z] initialHook /\
  returned (Nat.iter 3
              (Verbose.processDebounced plain_options (Some (message 176 999 64)))
              initialHook) = returned initialHook /\
  midiMessage (Verbose.processDebounced plain_options (Some (message 176 999 64))
                 initialHook) = midiMessage initialHook /\
  console (Nat.iter 3
             (Verbose.processDebounced plain_options (Some (message 176 999 64)))
             initialHook) =
    console initialHook ++
      replicate 3
        {| level := level_warn;
           arguments :=
             ["No controller mapping found for note " +:+ pretty 999%Z
                +:+ " and command " +:+ pretty 176%Z] |}.
Proof.
  apply (unmapped_message_dropped plain_options initialHook 176 999 64 3).
  vm_compute. reflexivity.
Defined.

(** ** The two hooks side by side *)

Lemma hooks_agree_step (o : UseControllerOptions) (h1 h2 : Hook) (e : Event) :
  returned h1 = returned h2 ->
  event_throws e = false ->
  exists h1', Compact.step o h1 e = Some h1' /\
              returned h1' = returned (Verbose.step o h2 e).
Proof.
  intros Hret Hthrow.
  assert (Hstate : state h1 = state h2) by (injection Hret; auto).
  assert (Hstatus : status h1 = status h2) by (injection Hret; auto).
  assert (Hdev : connectedDevices h1 = connectedDevices h2)
    by (injection Hret; auto).
  destruct e as [inputs | | port inputs | m | m]; simpl.
  - eexists; split; [reflexivity | ].
    unfold returned; simpl. rewrite Hstate. reflexivity.
  - eexists; split; [reflexivity | ].
    unfold returned; simpl. rewrite Hstate, Hdev. reflexivity.
  - eexists; split; [reflexivity | ].
    unfold returned; simpl. rewrite Hstate. reflexivity.
  - eexists; split; [reflexivity | ]. exact Hret.
  - destruct m as [[[[[command note] velocity]|]]|]; simpl in *.
    + destruct (JS.truthy_string (lookup_controller (controllers o) note command)) as [c|].
      * eexists; split; [reflexivity | ].
        unfold returned, dispatch_with, Compact.reducer, Verbose.reducer; simpl.
        rewrite Hstate, Hstatus, Hdev. reflexivity.
      * eexists; split; [reflexivity | ]. exact Hret.
    + discriminate.
    + eexists; split; [reflexivity | ]. exact Hret.
Qed.

Lemma hooks_agree_run (o : UseControllerOptions) (es : list Event) :
  forall h1 h2 : Hook,
    returned h1 = returned h2 ->
    forallb (fun e => negb (event_throws e)) es = true ->
    returned <$> Compact.run o h1 es = Some (returned (Verbose.run o h2 es)).
Proof.
  induction es as [| e es IH]; intros h1 h2 Hret Hok; simpl.
  - rewrite Hret. reflexivity.
  - simpl in Hok. apply andb_prop in Hok as [He Hes].
    apply negb_true_iff in He.
    destruct (hooks_agree_step o h1 h2 e Hret He) as (h1' & Hstep & Hret').
    rewrite Hstep. apply IH; assumption.
Qed.

(** The claim of C9 fails on a single unmapped message: the verbose hook
    logs a warning and the compact hook logs nothing.  It fails on a message
    with null data as well: the verbose hook ends with status [error], the
    compact hook with an exception that nothing catches. *)
Lemma hooks_differ_in_console_and_on_exception :
  console <$> Compact.run plain_options initialHook
                [Debounced (Some (message 176 999 64))] = Some [] /\
  console (Verbose.run plain_options initialHook
             [Debounced (Some (message 176 999 64))]) =
    [{| level := level_warn;
        arguments :=
          ["No controller mapping found for note 999 and command 176"] |}] /\
  Compact.run plain_options initialHook
    [AccessGranted [plugged]; Debounced (Some null_data_message)] = None /\
  status (Verbose.run plain_options initialHook
            [AccessGranted [plugged]; Debounced (Some null_data_message)]) = error.
Proof.
  destruct unmapped_pair_eval as (Hc & Hv).
  repeat split;
    first [reflexivity | simpl; rewrite Hc; reflexivity | exact Hv].
Qed.

(** C9, amended.  On every sequence of access outcomes, raw messages,
    debounced messages and port state changes in which no message handling
    throws, the two hooks return the same controller state, the same status
    and the same list of connected devices. *)
Theorem hooks_agree_without_exception (o : UseControllerOptions) (es : list Event) :
  forallb (fun e => negb (event_throws e)) es = true ->
  returned <$> Compact.run o initialHook es =
  Some (returned (Verbose.run o initialHook es)).
Proof. intros Hok. apply hooks_agree_run; [reflexivity | exact Hok]. Qed.

Lemma hooks_agree_without_exception_witness :
  returned <$> Compact.run sample_options initialHook
                 [AccessGranted [plugged]; Message (message 176 13 64);
                  Debounced (Some (message 176 13 64));
                  Debounced (Some (message 176 999 64));
                  StateChange unplugged []; AccessDenied] =
  Some (returned (Verbose.run sample_options initialHook
                    [AccessGranted [plugged]; Message (message 176 13 64);
                     Debounced (Some (message 176 13 64));
                     Debounced (Some (message 176 999 64));
                     StateChange unplugged []; AccessDenied])).
Proof.
  apply (hooks_agree_without_exception sample_options
           [AccessGranted [plugged]; Message (message 176 13 64);
            Debounced (Some (message 176 13 64));
            Debounced (Some (message 176 999 64));
            StateChange unplugged []; AccessDenied]).
  reflexivity.
Defined.

(** ** The debounce stage *)

Section DebounceFacts.

Context {A : Type}.
Variable w : Z.

(** The last element of a list that starts with [(t, x)]. *)
Lemma last_cons (events : list (Z * A)) :
  forall (t : Z) (x : A) (d : Z * A),
    List.last ((t, x) :: events) d = List.last events (t, x).
Proof.
  induction events as [| [t' x'] events IH]; intros t x d.
  - reflexivity.
  - change (List.last ((t, x) :: (t', x') :: events) d)
      with (List.last ((t', x') :: events) d).
    rewrite !IH. reflexivity.
Qed.

Lemma feed_cons (s : Debounce.Stage A) (t : Z) (x : A) (events : list (Z * A)) :
  Debounce.feed w s ((t, x) :: events) =
  Debounce.feed w (Debounce.arrive w t x s) events.
Proof. reflexivity. Qed.

(** An arrival before the pending window ends replaces the pending event
    and delivers nothing. *)
Lemma arrive_cancels (s : Debounce.Stage A) (t0 t : Z) (x0 x : A) :
  Debounce.held s = Some ((t0 + w)%Z, x0) ->
  (t < t0 + w)%Z ->
  Debounce.arrive w t x s =
  {| Debounce.held := Some ((t + w)%Z, x);
     Debounce.delivered := Debounce.delivered s |}.
Proof.
  intros Hheld Hlt. unfold Debounce.arrive, Debounce.elapse. rewrite Hheld.
  destruct (Z.leb_spec (t0 + w) t) as [Hle | _]; [lia | reflexivity].
Qed.

(** During a burst nothing is delivered, and the stage ends up holding the
    last event of the burst. *)
Lemma feed_burst (events : list (Z * A)) :
  forall (s : Debounce.Stage A) (t0 : Z) (x0 : A),
    Debounce.held s = Some ((t0 + w)%Z, x0) ->
    Debounce.burst w t0 events ->
    Debounce.feed w s events =
    {| Debounce.held :=
         Some ((fst (List.last events (t0, x0)) + w)%Z, snd (List.last events (t0, x0)));
       Debounce.delivered := Debounce.delivered s |}.
Proof.
  induction events as [| [t x] events IH]; intros s t0 x0 Hheld Hburst.
  - simpl. destruct s as [hd dl]; simpl in *. rewrite Hheld. reflexivity.
  - destruct Hburst as [[Hgt Hlt] Hrest].
    rewrite feed_cons, (arrive_cancels s t0 t x0 x Hheld Hlt).
    rewrite (IH {| Debounce.held := Some ((t + w)%Z, x);
                   Debounce.delivered := Debounce.delivered s |}
                t x eq_refl Hrest).
    simpl Debounce.delivered.
    rewrite (last_cons events t x (t0, x0)). reflexivity.
Qed.

Lemma burst_times (events : list (Z * A)) :
  forall (t0 : Z) (x0 : A),
    (0 < w)%Z ->
    Debounce.burst w t0 events ->
    (t0 <= fst (List.last events (t0, x0)))%Z /\
    Forall (fun e => (fst e <= fst (List.last events (t0, x0)))%Z) events.
Proof.
  induction events as [| [t x] events IH]; intros t0 x0 Hw Hburst.
  - simpl. split; [lia | constructor].
  - destruct Hburst as [[Hgt Hlt] Hrest].
    destruct (IH t x Hw Hrest) as [Hle Hall].
    rewrite (last_cons events t x (t0, x0)).
    split; [lia | ]. constructor; [exact Hle | exact Hall].
Qed.

End DebounceFacts.

(** C8.  For a window [w > 0] and events at increasing times, each less than
    a window after the one before, fed to an idle stage: nothing is delivered
    while the events arrive nor at any time before the window of the last
    event ends; once it has ended exactly one event has been delivered, with
    the payload of the last event; and the time of that delivery is later
    than every arrival, the first included. *)
Theorem burst_delivers_last_once {A : Type} (w t0 : Z) (x0 : A)
    (events : list (Z * A)) :
  (0 < w)%Z ->
  Debounce.burst w t0 events ->
  Debounce.delivered (Debounce.feed w Debounce.idle ((t0, x0) :: events)) = [] /\
  (forall now : Z,
     (now < fst (List.last events (t0, x0)) + w)%Z ->
     Debounce.delivered
       (Debounce.elapse now (Debounce.feed w Debounce.idle ((t0, x0) :: events))) = []) /\
  Debounce.delivered
    (Debounce.settle (Debounce.feed w Debounce.idle ((t0, x0) :: events))) =
    [((fst (List.last events (t0, x0)) + w)%Z, snd (List.last events (t0, x0)))] /\
  Forall (fun e => (fst e < fst (List.last events (t0, x0)) + w)%Z)
    ((t0, x0) :: events).
Proof.
  intros Hw Hburst.
  assert (Hfeed :
    Debounce.feed w Debounce.idle ((t0, x0) :: events) =
    {| Debounce.held :=
         Some ((fst (List.last events (t0, x0)) + w)%Z,
               snd (List.last events (t0, x0)));
       Debounce.delivered := [] |}).
  { rewrite feed_cons.
    apply (feed_burst w events (Debounce.arrive w t0 x0 Debounce.idle) t0 x0);
      [reflexivity | exact Hburst]. }
  destruct (burst_times w events t0 x0 Hw Hburst) as [Hfirst Hall].
  rewrite Hfeed. repeat split.
  - intros now Hnow. unfold Debounce.elapse; simpl.
    destruct (Z.leb_spec (fst (List.last events (t0, x0)) + w) now) as [Hle | _];
      [lia | reflexivity].
  - constructor; [simpl; lia | ].
    eapply Forall_impl; [exact Hall | ]. simpl. intros e He. lia.
Qed.

Lemma burst_delivers_last_once_witness :
  Debounce.delivered
    (Debounce.feed 16 Debounce.idle [(0, "a"); (5, "b"); (12, "c")]%Z) = [] /\
  (forall now : Z,
     (now < fst (List.last [(5, "b"); (12, "c")]%Z (0%Z, "a")) + 16)%Z ->
     Debounce.delivered
       (Debounce.elapse now
          (Debounce.feed 16 Debounce.idle [(0, "a"); (5, "b"); (12, "c")]%Z)) = []) /\
  Debounce.delivered
    (Debounce.settle
       (Debounce.feed 16 Debounce.idle [(0, "a"); (5, "b"); (12, "c")]%Z)) =
    [((fst (List.last [(5, "b"); (12, "c")]%Z (0%Z, "a")) + 16)%Z,
      snd (List.last [(5, "b"); (12, "c")]%Z (0%Z, "a")))] /\
  Forall (fun e => (fst e < fst (List.last [(5, "b"); (12, "c")]%Z (0%Z, "a")) + 16)%Z)
    [(0, "a"); (5, "b"); (12, "c")]%Z.
Proof.
  apply (burst_delivers_last_once 16 0 "a" [(5, "b"); (12, "c")]%Z).
  - lia.
  - simpl. lia.
Defined.

Example debounce_burst_evaluated :
  Debounce.delivered
    (Debounce.settle
       (Debounce.feed 16 Debounce.idle [(0, "a"); (5, "b"); (12, "c")]%Z)) =
  [(28%Z, "c")].
Proof. reflexivity. Qed.

(** Events further apart than the window are each delivered, in order. *)
Example debounce_spaced_evaluated :
  Debounce.delivered
    (Debounce.settle
       (Debounce.feed 16 Debounce.idle [(0, "a"); (20, "b"); (50, "c")]%Z)) =
  [(16%Z, "a"); (36%Z, "b"); (66%Z, "c")].
Proof. reflexivity. Qed.

(** * Further properties of the hooks and their consumers *)

(** ** What one event does to the controller state *)

Lemma Verbose_step_state (o : UseControllerOptions) (h : Hook) (e : Event) :
  state (Verbose.step o h e) = store (stored_by o e) (state h).
Proof.
  destruct e as [inputs | | port inputs | m | [[[[[command note] velocity]|]]|]];
    try reflexivity.
  simpl. destruct (JS.truthy_string _); reflexivity.
Qed.

Lemma Compact_step_state (o : UseControllerOptions) (h h' : Hook) (e : Event) :
  Compact.step o h e = Some h' ->
  state h' = store (stored_by o e) (state h).
Proof.
  destruct e as [inputs | | port inputs | m | [[[[[command note] velocity]|]]|]];
    simpl; intros Hs; try (injection Hs as <-; reflexivity); try discriminate.
  destruct (JS.truthy_string _); injection Hs as <-; reflexivity.
Qed.

Lemma Verbose_run_cons (o : UseControllerOptions) (h : Hook) (e : Event) (es : list Event) :
  Verbose.run o h (e :: es) = Verbose.run o (Verbose.step o h e) es.
Proof. reflexivity. Qed.

Lemma reaches_nil (o : UseControllerOptions) (h h' : Hook) :
  reaches o h [] h' -> h' = h.
Proof. intros [-> | [= <-]]; reflexivity. Qed.

(** A run of one or more events is a step followed by a run. *)
Lemma reaches_cons (o : UseControllerOptions) (h h' : Hook) (e : Event) (es : list Event) :
  reaches o h (e :: es) h' ->
  exists h1, state h1 = store (stored_by o e) (state h) /\ reaches o h1 es h'.
Proof.
  intros [-> | Hrun].
  - exists (Verbose.step o h e). split; [apply Verbose_step_state | left; reflexivity].
  - simpl in Hrun. destruct (Compact.step o h e) as [h1|] eqn:Hstep; [ | discriminate].
    exists h1. split; [apply (Compact_step_state _ _ _ _ Hstep) | right; exact Hrun].
Qed.

(** A property of the stored pairs that every event establishes holds of the
    state after every run of either hook. *)
Lemma run_state_invariant (P : string -> R -> Prop) (o : UseControllerOptions)
    (es : list Event) :
  Forall (fun e => forall c v, stored_by o e = Some (c, v) -> P c v) es ->
  forall h h' : Hook,
    (forall k v, state h !! k = Some v -> P k v) ->
    reaches o h es h' ->
    forall k v, state h' !! k = Some v -> P k v.
Proof.
  induction 1 as [| e es He Hes IH]; intros h h' Hh Hreach.
  - apply reaches_nil in Hreach as ->. exact Hh.
  - apply reaches_cons in Hreach as (h1 & Hst & Hreach).
    apply (IH h1 h'); [ | exact Hreach].
    rewrite Hst. intros k v.
    destruct (stored_by o e) as [[c w]|] eqn:Hs; simpl; [ | apply Hh].
    destruct (decide (c = k)) as [-> | Hne].
    + rewrite lookup_insert_eq. intros [= <-]. apply He. reflexivity.
    + rewrite lookup_insert_ne by exact Hne. apply Hh.
Qed.

Lemma stored_by_mapped (o : UseControllerOptions) (e : Event) (c : string) (v : R) :
  stored_by o e = Some (c, v) ->
  exists command note velocity,
    e = Debounced (Some (message command note velocity)) /\
    lookup_controller (controllers o) note command = Some c /\
    c <> EmptyString /\
    v = Compact.transformValue (JS.or_default ∅ (valueTransformers o)) c
          (Pipeline.rawNormalized velocity).
Proof.
  destruct e as [inputs | | port inputs | m | [[[[[command note] velocity]|]]|]];
    try discriminate.
  simpl. unfold JS.truthy_string.
  destruct (lookup_controller (controllers o) note command) as [s|] eqn:Hl;
    [ | discriminate].
  destruct (decide (s = EmptyString)) as [He | Hne]; [discriminate | ].
  intros [= <- <-]. exists command, note, velocity. repeat split; assumption.
Qed.

(** Keys are only ever added: a control that has a value in the state of a
    hook has one after every further run of events, in both hooks. *)
Theorem state_keys_persist (o : UseControllerOptions) (es : list Event)
    (h h' : Hook) (k : string) :
  reaches o h es h' ->
  is_Some (state h !! k) ->
  is_Some (state h' !! k).
Proof.
  revert h. induction es as [| e es IH]; intros h Hreach Hk.
  - apply reaches_nil in Hreach as ->. exact Hk.
  - apply reaches_cons in Hreach as (h1 & Hst & Hreach).
    apply (IH h1 Hreach). rewrite Hst.
    destruct (stored_by o e) as [[c w]|]; simpl; [ | exact Hk].
    destruct (decide (c = k)) as [-> | Hne].
    + rewrite lookup_insert_eq. eauto.
    + rewrite lookup_insert_ne by exact Hne. exact Hk.
Qed.

Lemma state_keys_persist_witness :
  is_Some (state (Verbose.run plain_options
                    (Verbose.run plain_options initialHook
                       [Debounced (Some (message 176 13 64))])
                    [StateChange unplugged []; Debounced (Some (message 177 13 0));
                     AccessDenied]) !! "C26").
Proof.
  apply (state_keys_persist plain_options
           [StateChange unplugged []; Debounced (Some (message 177 13 0));
            AccessDenied]
           (Verbose.run plain_options initialHook
              [Debounced (Some (message 176 13 64))])).
  - left. reflexivity.
  - vm_compute. eauto.
Defined.

(** Every key of the state was named by the controller map: starting from
    the empty state, a control has a value only if some pair of the map
    names it, and the empty string is never a key. *)
Theorem state_keys_named_by_map (o : UseControllerOptions) (es : list Event)
    (h' : Hook) (k : string) :
  reaches o initialHook es h' ->
  is_Some (state h' !! k) ->
  In k (profile_identifiers (controllers o)) /\ k <> EmptyString.
Proof.
  intros Hreach [v Hv].
  apply (run_state_invariant
           (fun c _ => In c (profile_identifiers (controllers o)) /\ c <> EmptyString)
           o es) with (h := initialHook) (h' := h') (v := v).
  - apply Forall_forall. intros e _ c w Hs.
    apply stored_by_mapped in Hs as (command & note & velocity & _ & Hl & Hne & _).
    split; [ | exact Hne]. apply (lookup_controller_identifier _ note command), Hl.
  - intros k0 v0. simpl. rewrite lookup_empty. discriminate.
  - exact Hreach.
  - exact Hv.
Qed.

Lemma state_keys_named_by_map_witness :
  In "C26" (profile_identifiers (controllers plain_options)) /\ "C26" <> EmptyString.
Proof.
  apply (state_keys_named_by_map plain_options
           [Debounced (Some (message 176 13 64))]
           (Verbose.run plain_options initialHook
              [Debounced (Some (message 176 13 64))]) "C26").
  - left. reflexivity.
  - vm_compute. eauto.
Defined.

(** ** The range of the stored values *)




(** Without transformers the stored values stay in the unit interval. *)
Lemma unit_state_without_transformers (o : UseControllerOptions)
    (es : list Event) (h' : Hook) :
  valueTransformers o = None ->
  Forall velocity_ok es ->
  reaches o initialHook es h' ->
  unit_state (state h').
Proof.
  intros Hnone Hok Hreach k v Hv.
  apply (run_state_invariant (fun _ v => 0 <= v <= 1) o es)
    with (h := initialHook) (h' := h') (k := k).
  - eapply Forall_impl; [exact Hok | ]. intros e He c w Hs.
    apply stored_by_mapped in Hs as (command & note & velocity & -> & _ & _ & ->).
    rewrite Hnone. simpl.
    rewrite transformValue_unconfigured by apply lookup_empty.
    apply rawNormalized_range. exact He.
  - intros k0 v0. simpl. rewrite lookup_empty. discriminate.
  - exact Hreach.
  - exact Hv.
Qed.

(** ** One debounced message *)

(** A message for a mapped control writes the value of that control and
    nothing else: the other controls, the status, the device list and the
    console are as before, in both hooks. *)
Theorem mapped_message_updates_one_control (o : UseControllerOptions)
    (h h' : Hook) (command note velocity : Z) (c : string) :
  JS.truthy_string (lookup_controller (controllers o) note command) = Some c ->
  reaches o h [Debounced (Some (message command note velocity))] h' ->
  state h' !! c =
    Some (Compact.transformValue (JS.or_default ∅ (valueTransformers o)) c
            (Pipeline.rawNormalized velocity)) /\
  (forall k : string, k <> c -> state h' !! k = state h !! k) /\
  status h' = status h /\
  connectedDevices h' = connectedDevices h /\
  console h' = console h.
Proof.
  intros Hmap Hreach.
  assert (Hh' : h' = dispatch_with Compact.reducer
                       {| controller := c;
                          value := Compact.transformValue
                                     (JS.or_default ∅ (valueTransformers o)) c
                                     (Pipeline.rawNormalized velocity) |} h).
  { destruct Hreach as [-> | Hrun].
    - change (Verbose.run o h [Debounced (Some (message command note velocity))])
        with (Verbose.processDebounced o (Some (message command note velocity)) h).
      rewrite Verbose_processDebounced_data, Hmap. reflexivity.
    - change (Compact.run o h [Debounced (Some (message command note velocity))])
        with (match Compact.processDebounced o
                      (Some (message command note velocity)) h with
              | Some h1 => Some h1
              | None => None
              end) in Hrun.
      rewrite Compact_processDebounced_data, Hmap in Hrun.
      injection Hrun as <-. reflexivity. }
  subst h'. unfold dispatch_with, Compact.reducer; simpl.
  repeat split.
  - apply lookup_insert_eq.
  - intros k Hk. apply lookup_insert_ne. congruence.
Qed.

Lemma mapped_message_updates_one_control_witness :
  state (Verbose.run plain_options initialHook
           [Debounced (Some (message 176 13 64))]) !! "C26" =
    Some (Compact.transformValue (JS.or_default ∅ (valueTransformers plain_options))
            "C26" (Pipeline.rawNormalized 64)) /\
  (forall k : string, k <> "C26" ->
     state (Verbose.run plain_options initialHook
              [Debounced (Some (message 176 13 64))]) !! k =
     state initialHook !! k) /\
  status (Verbose.run plain_options initialHook
            [Debounced (Some (message 176 13 64))]) = status initialHook /\
  connectedDevices (Verbose.run plain_options initialHook
                      [Debounced (Some (message 176 13 64))]) =
    connectedDevices initialHook /\
  console (Verbose.run plain_options initialHook
             [Debounced (Some (message 176 13 64))]) = console initialHook.
Proof.
  apply (mapped_message_updates_one_control plain_options initialHook
           (Verbose.run plain_options initialHook
              [Debounced (Some (message 176 13 64))]) 176 13 64 "C26").
  - vm_compute. reflexivity.
  - left. reflexivity.
Defined.

Lemma Compact_processDebounced_data_unmapped (o : UseControllerOptions) (h : Hook)
    (command note velocity : Z) :
  JS.truthy_string (lookup_controller (controllers o) note command) = None ->
  Compact.processDebounced o (Some (message command note velocity)) h = Some h.
Proof. intros Hn. rewrite Compact_processDebounced_data, Hn. reflexivity. Qed.

(** Running the effect once more on the same debounced message changes
    nothing that the hook returns; in the compact hook it changes nothing at
    all. *)
Theorem effect_rerun_idempotent (o : UseControllerOptions)
    (m : option MIDIMessageEvent) (h : Hook) :
  returned (Verbose.processDebounced o m (Verbose.processDebounced o m h)) =
    returned (Verbose.processDebounced o m h) /\
  match Compact.processDebounced o m h with
  | Some h1 => Compact.processDebounced o m h1 = Some h1
  | None => True
  end.
Proof.
  destruct m as [[[[[command note] velocity]|]]|].
  - fold (message command note velocity).
    rewrite Compact_processDebounced_data, !Verbose_processDebounced_data.
    destruct (JS.truthy_string (lookup_controller (controllers o) note command))
      as [c|] eqn:Hmap.
    + split.
      * unfold returned, dispatch_with, Verbose.reducer.
        cbn [state status connectedDevices controller value].
        f_equal. apply insert_insert_eq.
      * rewrite Compact_processDebounced_data, Hmap.
        unfold dispatch_with, Compact.reducer.
        cbn [state status connectedDevices midiMessage console controller value].
        do 2 f_equal. apply insert_insert_eq.
    + split; [reflexivity | ].
      apply Compact_processDebounced_data_unmapped, Hmap.
  - split; [reflexivity | exact I].
  - split; reflexivity.
Qed.

(** ** The device list *)

Lemma device_of_port_filled (p : MIDIPort) :
  device_name (device_of_port p) <> EmptyString /\
  device_manufacturer (device_of_port p) <> EmptyString.
Proof.
  unfold device_of_port, JS.truthy_string; cbn [device_name device_manufacturer].
  split.
  - destruct (port_name p) as [s|]; simpl; [ | discriminate].
    destruct (decide (s = EmptyString)); simpl; [discriminate | assumption].
  - destruct (port_manufacturer p) as [s|]; simpl; [ | discriminate].
    destruct (decide (s = EmptyString)); simpl; [discriminate | assumption].
Qed.

Lemma device_of_port_keeps (p : MIDIPort) :
  (forall s, port_name p = Some s -> s <> EmptyString ->
             device_name (device_of_port p) = s) /\
  (forall s, port_manufacturer p = Some s -> s <> EmptyString ->
             device_manufacturer (device_of_port p) = s).
Proof.
  unfold device_of_port, JS.truthy_string; cbn [device_name device_manufacturer].
  split; intros s -> Hs; simpl;
    (destruct (decide (s = EmptyString)); [contradiction | reflexivity]).
Qed.

(** The device list has one record per enumerated input, in the order of
    the enumeration, with the id and the connection of the input; no record
    has an empty name or an empty manufacturer, and a name or manufacturer
    that is not empty is kept. *)
Theorem device_records_filled (inputs : list MIDIPort) (h : Hook) :
  connectedDevices (Verbose.updateConnectedDevices inputs h) =
    connectedDevices (Compact.updateDevices inputs h) /\
  map device_id (connectedDevices (Compact.updateDevices inputs h)) =
    map port_id inputs /\
  map device_connection (connectedDevices (Compact.updateDevices inputs h)) =
    map port_connection inputs /\
  Forall (fun d => device_name d <> EmptyString /\
                   device_manufacturer d <> EmptyString)
    (connectedDevices (Compact.updateDevices inputs h)) /\
  Forall2 (fun p d =>
             (forall s, port_name p = Some s -> s <> EmptyString ->
                        device_name d = s) /\
             (forall s, port_manufacturer p = Some s -> s <> EmptyString ->
                        device_manufacturer d = s))
    inputs (connectedDevices (Compact.updateDevices inputs h)).
Proof.
  split; [reflexivity | ].
  rewrite Compact_updateDevices. unfold setConnectedDevices.
  cbn [connectedDevices].
  split; [apply device_ids | ].
  split; [rewrite map_map; reflexivity | ].
  split.
  - apply Forall_forall. intros d Hd.
    apply list_elem_of_In, in_map_iff in Hd as (p & <- & _).
    apply device_of_port_filled.
  - induction inputs as [| p inputs IH]; constructor; [ | exact IH].
    apply device_of_port_keeps.
Qed.

(** ** More on rounding and on the value transform *)



Lemma rawNormalized_step (v : Z) :
  Pipeline.rawNormalized v + 7 / 1000 <= Pipeline.rawNormalized (v + 1).
Proof.
  rewrite !rawNormalized_div.
  assert (Hd : ((2000 * v + 127) / 254 + 7 <= (2000 * (v + 1) + 127) / 254)%Z).
  { replace (2000 * (v + 1) + 127)%Z with (2000 * v + 127 + 222 + 7 * 254)%Z by lia.
    rewrite Z.div_add by lia.
    apply Z.add_le_mono_r. apply Z.div_le_mono; lia. }
  apply IZR_le in Hd. rewrite plus_IZR in Hd. lra.
Qed.

Lemma rawNormalized_increasing (v1 v2 : Z) :
  (v1 < v2)%Z -> Pipeline.rawNormalized v1 < Pipeline.rawNormalized v2.
Proof.
  intros Hlt.
  assert (Hn : forall n : nat,
             Pipeline.rawNormalized v1 <
             Pipeline.rawNormalized (v1 + 1 + Z.of_nat n)).
  { induction n as [| n IH].
    - replace (v1 + 1 + Z.of_nat 0)%Z with (v1 + 1)%Z by lia.
      pose proof (rawNormalized_step v1). lra.
    - replace (v1 + 1 + Z.of_nat (S n))%Z with (v1 + 1 + Z.of_nat n + 1)%Z by lia.
      pose proof (rawNormalized_step (v1 + 1 + Z.of_nat n)). lra. }
  specialize (Hn (Z.to_nat (v2 - v1 - 1))).
  replace (v1 + 1 + Z.of_nat (Z.to_nat (v2 - v1 - 1)))%Z with v2 in Hn by lia.
  exact Hn.
Qed.

(** The quantisation of the velocity loses nothing and clamps nothing: a
    greater velocity byte gives a strictly greater raw value, so the 128
    MIDI velocities give 128 distinct raw values, and a byte above 127 gives
    a raw value above 1.  Every raw value has three decimals. *)
Theorem rawNormalized_strictly_increasing (v1 v2 : Z) :
  (v1 < v2)%Z ->
  Pipeline.rawNormalized v1 < Pipeline.rawNormalized v2 /\
  ((127 <= v1)%Z -> 1 < Pipeline.rawNormalized v2) /\
  exists k : Z, Pipeline.rawNormalized v2 = IZR k / 1000.
Proof.
  intros Hlt. split; [apply rawNormalized_increasing, Hlt | ]. split.
  - intros Hv1. rewrite <- rawNormalized_127.
    apply rawNormalized_increasing. lia.
  - eexists. apply rawNormalized_div.
Qed.

Lemma rawNormalized_strictly_increasing_witness :
  Pipeline.rawNormalized 127 < Pipeline.rawNormalized 128 /\
  ((127 <= 127)%Z -> 1 < Pipeline.rawNormalized 128) /\
  exists k : Z, Pipeline.rawNormalized 128 = IZR k / 1000.
Proof. apply (rawNormalized_strictly_increasing 127 128). lia. Defined.









(** ** The console of the compact hook *)

Lemma Compact_step_console (o : UseControllerOptions) (h h' : Hook) (e : Event) :
  Compact.step o h e = Some h' ->
  console h' =
  console h ++
    (if is_access_denied e
     then [{| level := level_log; arguments := ["MIDI access denied"] |}]
     else []).
Proof.
  destruct e as [inputs | | port inputs | m | [[[[[command note] velocity]|]]|]];
    simpl; intros Hs; try discriminate;
    try (injection Hs as <-; simpl; rewrite ?app_nil_r; reflexivity).
  destruct (JS.truthy_string _); injection Hs as <-; simpl;
    rewrite app_nil_r; reflexivity.
Qed.

(** The compact hook writes to the console on a denied access and on
    nothing else: after every run its console holds one log line
    [MIDI access denied] per denial, and no warning and no error. *)
Theorem compact_console_only_access_denied (o : UseControllerOptions)
    (es : list Event) (h h' : Hook) :
  Compact.run o h es = Some h' ->
  console h' =
  console h ++
    replicate (length (List.filter is_access_denied es))
      {| level := level_log; arguments := ["MIDI access denied"] |}.
Proof.
  revert h. induction es as [| e es IH]; intros h Hrun.
  - injection Hrun as <-. simpl. rewrite app_nil_r. reflexivity.
  - simpl in Hrun. destruct (Compact.step o h e) as [h1|] eqn:Hstep;
      [ | discriminate].
    rewrite (IH h1 Hrun), (Compact_step_console _ _ _ _ Hstep).
    simpl. destruct (is_access_denied e); simpl.
    + rewrite <- app_assoc. reflexivity.
    + rewrite app_nil_r. reflexivity.
Qed.

Lemma compact_console_only_access_denied_witness :
  console (Compact.onstatechange unplugged []
             (Compact.onAccessDenied initialHook)) =
  console initialHook ++
    replicate
      (length (List.filter is_access_denied
                 [AccessDenied; Debounced (Some (message 176 999 64));
                  StateChange unplugged []]))
      {| level := level_log; arguments := ["MIDI access denied"] |}.
Proof.
  apply (compact_console_only_access_denied plain_options
           [AccessDenied; Debounced (Some (message 176 999 64));
            StateChange unplugged []] initialHook).
  vm_compute. reflexivity.
Defined.

(** ** Connection cells and controller state evolve apart *)

Lemma Verbose_step_connection (o : UseControllerOptions) (h1 h2 : Hook) (e : Event) :
  status h1 = status h2 ->
  connectedDevices h1 = connectedDevices h2 ->
  status (Verbose.step o h1 e) =
    status (if writes_connection e then Verbose.step o h2 e else h2) /\
  connectedDevices (Verbose.step o h1 e) =
    connectedDevices (if writes_connection e then Verbose.step o h2 e else h2).
Proof.
  intros Hs Hd.
  destruct e as [inputs | | port inputs | m | [[[[[command note] velocity]|]]|]];
    simpl; try (split; first [reflexivity | assumption]).
  destruct (JS.truthy_string _); simpl; split; assumption.
Qed.

Lemma Verbose_run_connection (o : UseControllerOptions) (es : list Event) :
  forall h1 h2 : Hook,
    status h1 = status h2 ->
    connectedDevices h1 = connectedDevices h2 ->
    status (Verbose.run o h1 es) =
      status (Verbose.run o h2 (List.filter writes_connection es)) /\
    connectedDevices (Verbose.run o h1 es) =
      connectedDevices (Verbose.run o h2 (List.filter writes_connection es)).
Proof.
  induction es as [| e es IH]; intros h1 h2 Hs Hd.
  - split; assumption.
  - rewrite Verbose_run_cons.
    destruct (Verbose_step_connection o h1 h2 e Hs Hd) as [Hs' Hd'].
    simpl List.filter. destruct (writes_connection e).
    + rewrite Verbose_run_cons. apply IH; assumption.
    + apply IH; assumption.
Qed.

Lemma Verbose_run_state (o : UseControllerOptions) (es : list Event) :
  forall h1 h2 : Hook,
    state h1 = state h2 ->
    state (Verbose.run o h1 es) =
    state (Verbose.run o h2 (List.filter writes_state es)).
Proof.
  induction es as [| e es IH]; intros h1 h2 Hst.
  - exact Hst.
  - rewrite Verbose_run_cons. simpl List.filter.
    destruct (writes_state e) eqn:Hw.
    + rewrite Verbose_run_cons. apply IH.
      rewrite !Verbose_step_state, Hst. reflexivity.
    + apply IH. rewrite Verbose_step_state, <- Hst.
      destruct e; try discriminate; reflexivity.
Qed.

(** A run of the compact hook that ends without an exception returns what
    the verbose hook returns. *)
Lemma Compact_run_returned (o : UseControllerOptions) (es : list Event) :
  forall h1 h2 h' : Hook,
    returned h1 = returned h2 ->
    Compact.run o h1 es = Some h' ->
    returned h' = returned (Verbose.run o h2 es).
Proof.
  induction es as [| e es IH]; intros h1 h2 h' Hret Hrun.
  - injection Hrun as <-. exact Hret.
  - simpl in Hrun. destruct (Compact.step o h1 e) as [h1'|] eqn:Hstep;
      [ | discriminate].
    assert (Hthrow : event_throws e = false).
    { destruct e as [inputs | | port inputs | m | [[[[[command note] velocity]|]]|]];
        try reflexivity. discriminate. }
    destruct (hooks_agree_step o h1 h2 e Hret Hthrow) as (h1'' & Hstep' & Hret').
    rewrite Hstep in Hstep'. injection Hstep' as <-.
    rewrite Verbose_run_cons. apply (IH h1' _ h' Hret' Hrun).
Qed.

(** The status and the device list after a run are those after the access
    outcomes, the port state changes and the caught exceptions of the run
    alone, and the controller state is that after its debounced messages
    alone: message traffic never touches the connection cells, and
    connection events never touch the controller state.  This holds in the
    verbose hook and, for runs that end without an exception, in the compact
    one. *)
Theorem connection_and_state_evolve_apart (o : UseControllerOptions)
    (es : list Event) (h h' : Hook) :
  reaches o h es h' ->
  status h' = status (Verbose.run o h (List.filter writes_connection es)) /\
  connectedDevices h' =
    connectedDevices (Verbose.run o h (List.filter writes_connection es)) /\
  state h' = state (Verbose.run o h (List.filter writes_state es)).
Proof.
  intros Hreach.
  assert (Hret : returned h' = returned (Verbose.run o h es)).
  { destruct Hreach as [-> | Hrun]; [reflexivity | ].
    apply (Compact_run_returned o es h h h' eq_refl Hrun). }
  destruct (Verbose_run_connection o es h h eq_refl eq_refl) as [Hs Hd].
  pose proof (Verbose_run_state o es h h eq_refl) as Hst.
  injection Hret as E1 E2 E3. rewrite E1, E2, E3. repeat split; assumption.
Qed.

Lemma connection_and_state_evolve_apart_witness :
  status (Verbose.run sample_options initialHook
            [AccessGranted [plugged]; Debounced (Some (message 176 13 64));
             StateChange unplugged []; Message (message 176 13 0)]) =
    status (Verbose.run sample_options initialHook
              (List.filter writes_connection
                 [AccessGranted [plugged]; Debounced (Some (message 176 13 64));
                  StateChange unplugged []; Message (message 176 13 0)])) /\
  connectedDevices (Verbose.run sample_options initialHook
            [AccessGranted [plugged]; Debounced (Some (message 176 13 64));
             StateChange unplugged []; Message (message 176 13 0)]) =
    connectedDevices (Verbose.run sample_options initialHook
              (List.filter writes_connection
                 [AccessGranted [plugged]; Debounced (Some (message 176 13 64));
                  StateChange unplugged []; Message (message 176 13 0)])) /\
  state (Verbose.run sample_options initialHook
            [AccessGranted [plugged]; Debounced (Some (message 176 13 64));
             StateChange unplugged []; Message (message 176 13 0)]) =
    state (Verbose.run sample_options initialHook
              (List.filter writes_state
                 [AccessGranted [plugged]; Debounced (Some (message 176 13 64));
                  StateChange unplugged []; Message (message 176 13 0)])).
Proof.
  apply (connection_and_state_evolve_apart sample_options
           [AccessGranted [plugged]; Debounced (Some (message 176 13 64));
            StateChange unplugged []; Message (message 176 13 0)] initialHook).
  left. reflexivity.
Defined.

(** ** The rendering consumers *)

Lemma control_value_lookup (st : gmap string R) (id : string) :
  Render.control_value st id = JS.or_default 0 (st !! id).
Proof.
  unfold Render.control_value, JS.truthy_number.
  destruct (st !! id) as [x|]; [ | reflexivity].
  destruct (Req_dec_T x 0) as [-> | _]; reflexivity.
Qed.

Lemma control_value_unit (st : gmap string R) (id : string) :
  unit_state st -> 0 <= Render.control_value st id <= 1.
Proof.
  intros Hu. rewrite control_value_lookup.
  destruct (st !! id) as [x|] eqn:Hx; simpl; [apply (Hu id x Hx) | split; lra].
Qed.

(** With no transformer configured and velocities between 0 and 127, what
    the components draw stays on the dial and in the slot: after every run
    from the empty state, every knob is turned by an angle in [[-135,135]]
    degrees ([[0,270]] in the first version of the knob) and every fader is
    filled to between 0 and 100 percent; a control that has no value yet is
    drawn at 0. *)
Theorem rendering_within_range (o : UseControllerOptions) (es : list Event)
    (h' : Hook) (id : string) :
  valueTransformers o = None ->
  Forall velocity_ok es ->
  reaches o initialHook es h' ->
  -135 <= Render.KnobControl_rotation (Render.control_value (state h') id) <= 135 /\
  0 <= Render.KnobControl_rotation_simple (Render.control_value (state h') id) <= 270 /\
  0 <= Render.FaderControl_height (Render.control_value (state h') id) <= 100 /\
  (state h' !! id = None -> Render.control_value (state h') id = 0).
Proof.
  intros Hnone Hok Hreach.
  pose proof (control_value_unit (state h') id
                (unit_state_without_transformers o es h' Hnone Hok Hreach))
    as [H0 H1].
  unfold Render.KnobControl_rotation, Render.KnobControl_rotation_simple,
    Render.FaderControl_height.
  repeat split; try lra.
  intros Hid. rewrite control_value_lookup, Hid. reflexivity.
Qed.

Lemma rendering_within_range_witness :
  -135 <= Render.KnobControl_rotation
            (Render.control_value
               (state (Verbose.run plain_options initialHook
                         [Debounced (Some (message 176 13 64))])) "C26") <= 135 /\
  0 <= Render.KnobControl_rotation_simple
         (Render.control_value
            (state (Verbose.run plain_options initialHook
                      [Debounced (Some (message 176 13 64))])) "C26") <= 270 /\
  0 <= Render.FaderControl_height
         (Render.control_value
            (state (Verbose.run plain_options initialHook
                      [Debounced (Some (message 176 13 64))])) "C26") <= 100 /\
  (state (Verbose.run plain_options initialHook
            [Debounced (Some (message 176 13 64))]) !! "C26" = None ->
   Render.control_value
     (state (Verbose.run plain_options initialHook
               [Debounced (Some (message 176 13 64))])) "C26" = 0).
Proof.
  apply (rendering_within_range plain_options
           [Debounced (Some (message 176 13 64))]
           (Verbose.run plain_options initialHook
              [Debounced (Some (message 176 13 64))]) "C26").
  - reflexivity.
  - repeat constructor; simpl; lia.
  - left. reflexivity.
Defined.

(** ** The highlight *)

Lemma strict_neq_same (a : option R) : Render.strict_neq a a = false.
Proof.
  destruct a as [x|]; simpl; [ | reflexivity].
  destruct (Req_dec_T x x) as [_ | Hne]; [reflexivity | contradiction].
Qed.

Lemma strict_neq_true (a b : option R) : a <> b -> Render.strict_neq a b = true.
Proof.
  destruct a as [x|], b as [y|]; simpl; intros Hne; try reflexivity.
  - destruct (Req_dec_T x y) as [-> | _]; [contradiction | reflexivity].
  - contradiction.
Qed.

(** [List.find] returns the one element that satisfies the test. *)
Lemma find_only {A : Type} (f : A -> bool) (c : A) (l : list A) :
  In c l -> f c = true -> (forall x, In x l -> f x = true -> x = c) ->
  List.find f l = Some c.
Proof.
  induction l as [| x l IH]; intros Hin Hc Honly; [contradiction | ].
  simpl. destruct (f x) eqn:Hx.
  - f_equal. apply Honly; [left; reflexivity | exact Hx].
  - destruct Hin as [-> | Hin]; [congruence | ].
    apply IH; [exact Hin | exact Hc | ].
    intros y Hy. apply Honly. right. exact Hy.
Qed.

Lemma find_nowhere {A : Type} (f : A -> bool) (l : list A) :
  (forall x, In x l -> f x = false) -> List.find f l = None.
Proof.
  induction l as [| x l IH]; intros Hall; [reflexivity | ].
  simpl. rewrite (Hall x (or_introl eq_refl)).
  apply IH. intros y Hy. apply Hall. right. exact Hy.
Qed.

(** While the status is [connected], a state that differs from the previous
    snapshot in the value of one control makes that control the highlighted
    one, wherever it stands among the keys, and becomes the previous
    snapshot. *)
Theorem highlight_follows_changed_control (keys : list string)
    (st : gmap string R) (c : string) (v : R) (hl : Render.Highlight) :
  (forall k : string, In k keys <-> is_Some (<[c := v]> st !! k)) ->
  Render.previousState hl = st ->
  c <> EmptyString ->
  st !! c <> Some v ->
  Render.highlight_effect keys connected (<[c := v]> st) hl =
  {| Render.previousState := <[c := v]> st; Render.lastChangedId := c |}.
Proof.
  intros Hkeys Hprev Hne Hchanged.
  unfold Render.highlight_effect. simpl Render.isConnected. cbv iota zeta.
  rewrite Hprev.
  rewrite (find_only _ c keys).
  - unfold JS.truthy_string. destruct (decide (c = EmptyString)); [contradiction | ].
    reflexivity.
  - apply Hkeys. rewrite lookup_insert_eq. eauto.
  - apply strict_neq_true. rewrite lookup_insert_eq. congruence.
  - intros k _ Hk. destruct (decide (k = c)) as [Heq | Hkc]; [exact Heq | ].
    rewrite lookup_insert_ne in Hk by congruence.
    rewrite strict_neq_same in Hk. discriminate.
Qed.

Lemma highlight_follows_changed_control_witness :
  Render.highlight_effect ["C26"; "F9"] connected
    (<["F9" := 1]> {[ "C26" := / 2 ]}) 
    {| Render.previousState := {[ "C26" := / 2 ]}; Render.lastChangedId := "C26" |} =
  {| Render.previousState := <["F9" := 1]> {[ "C26" := / 2 ]};
     Render.lastChangedId := "F9" |}.
Proof.
  apply (highlight_follows_changed_control ["C26"; "F9"] {[ "C26" := / 2 ]} "F9" 1
           {| Render.previousState := {[ "C26" := / 2 ]};
              Render.lastChangedId := "C26" |}).
  - intros k. split.
    + intros [<- | [<- | []]]; vm_compute; eauto.
    + intros Hk. destruct (decide (k = "F9")) as [-> | Hf]; [right; left; reflexivity | ].
      rewrite lookup_insert_ne in Hk by congruence.
      destruct (decide (k = "C26")) as [-> | Hc]; [left; reflexivity | ].
      rewrite lookup_singleton_ne in Hk by congruence.
      destruct Hk as [x Hx]. discriminate.
  - reflexivity.
  - discriminate.
  - vm_compute. discriminate.
Defined.

(** The highlight is frozen while the status is not [connected]: the effect
    then changes neither the highlighted control nor the previous snapshot,
    whatever the state.  And with the status [connected] a state equal to the
    previous snapshot leaves the highlight where it is. *)
Theorem highlight_kept (keys : list string) (status : MIDIConnectionStatus)
    (st : gmap string R) (hl : Render.Highlight) :
  status <> connected \/ Render.previousState hl = st ->
  Render.lastChangedId (Render.highlight_effect keys status st hl) =
    Render.lastChangedId hl /\
  (status <> connected -> Render.highlight_effect keys status st hl = hl).
Proof.
  intros Hcase. unfold Render.highlight_effect.
  destruct status; simpl Render.isConnected; cbv iota.
  - split; [reflexivity | reflexivity].
  - destruct Hcase as [Hne | Hprev]; [contradiction | ].
    split; [ | intros Hne; contradiction].
    cbv zeta. simpl Render.lastChangedId.
    replace (List.find _ keys) with (@None string); [reflexivity | ].
    symmetry. apply find_nowhere. intros k _. rewrite Hprev. apply strict_neq_same.
  - split; reflexivity.
Qed.

Lemma highlight_kept_witness :
  Render.lastChangedId
    (Render.highlight_effect ["C26"] disconnected {[ "C26" := 1 ]}
       Render.initialHighlight) =
    Render.lastChangedId Render.initialHighlight /\
  (disconnected <> connected ->
   Render.highlight_effect ["C26"] disconnected {[ "C26" := 1 ]}
     Render.initialHighlight = Render.initialHighlight).
Proof.
  apply (highlight_kept ["C26"] disconnected {[ "C26" := 1 ]} Render.initialHighlight).
  left. discriminate.
Defined.

(** ** The synthesizer consumer *)

Lemma number_or_range (x : option R) (f : R -> R) (d lo hi : R) :
  (forall y, x = Some y -> lo <= f y <= hi) ->
  lo <= d <= hi ->
  lo <= Synth.number_or x f d <= hi.
Proof.
  intros Hf Hd. destruct x as [y|]; simpl; [apply Hf; reflexivity | exact Hd].
Qed.

(** With no transformer configured and velocities between 0 and 127, every
    parameter the synthesizer is given stays in the range its formula is
    written for, defaults included: volume and filter gain in [[-12,12]] dB,
    detune in [[-50,50]] cents, cutoff in [[20,20000]] Hz, Q in [[0,10]], LFO
    rate in [[0,20]] Hz, reverb decay in [[0,10]] s, pre-delay in
    [[0,0.1]] s, and the amounts and mixes in [[0,1]]. *)
Theorem synth_params_within_range (o : UseControllerOptions) (es : list Event)
    (h' : Hook) :
  valueTransformers o = None ->
  Forall velocity_ok es ->
  reaches o initialHook es h' ->
  -12 <= Synth.volume (Synth.params (state h')) <= 12 /\
  -50 <= Synth.detune (Synth.params (state h')) <= 50 /\
  20 <= Synth.filter_frequency (Synth.params (state h')) <= 20000 /\
  0 <= Synth.filter_Q (Synth.params (state h')) <= 10 /\
  -12 <= Synth.filter_gain (Synth.params (state h')) <= 12 /\
  0 <= Synth.lfo_frequency (Synth.params (state h')) <= 20 /\
  0 <= Synth.lfo_amplitude (Synth.params (state h')) <= 1 /\
  0 <= Synth.distortion (Synth.params (state h')) <= 1 /\
  0 <= Synth.distortion_wet (Synth.params (state h')) <= 1 /\
  0 <= Synth.delay_delayTime (Synth.params (state h')) <= 1 /\
  0 <= Synth.delay_feedback (Synth.params (state h')) <= 1 /\
  0 <= Synth.delay_wet (Synth.params (state h')) <= 1 /\
  0 <= Synth.reverb_decay (Synth.params (state h')) <= 10 /\
  0 <= Synth.reverb_preDelay (Synth.params (state h')) <= / 10 /\
  0 <= Synth.reverb_wet (Synth.params (state h')) <= 1.
Proof.
  intros Hnone Hok Hreach.
  pose proof (unit_state_without_transformers o es h' Hnone Hok Hreach) as Hu.
  unfold Synth.params; cbn [Synth.volume Synth.detune Synth.filter_frequency
    Synth.filter_Q Synth.filter_gain Synth.lfo_frequency Synth.lfo_amplitude
    Synth.distortion Synth.distortion_wet Synth.delay_delayTime
    Synth.delay_feedback Synth.delay_wet Synth.reverb_decay
    Synth.reverb_preDelay Synth.reverb_wet].
  assert (Hone : forall (x : option R) (k : string) (f : R -> R) (d lo hi : R),
             x = state h' !! k ->
             (forall y, 0 <= y <= 1 -> lo <= f y <= hi) ->
             lo <= d <= hi ->
             lo <= Synth.number_or x f d <= hi).
  { intros x k f d lo hi -> Hf Hd. apply number_or_range; [ | exact Hd].
    intros y Hy. apply Hf. apply (Hu k y Hy). }
  repeat match goal with
         | |- _ <= Synth.number_or (state h' !! ?k) _ _ <= _ =>
             apply (Hone _ k _ _ _ _ eq_refl);
               [intros y [H0 H1]; split; lra | split; lra]
         | |- _ /\ _ => split
         end.
Qed.

Lemma synth_params_within_range_witness :
  -12 <= Synth.volume (Synth.params (state (Verbose.run plain_options initialHook
           [Debounced (Some (message 176 13 64))]))) <= 12 /\
  -50 <= Synth.detune (Synth.params (state (Verbose.run plain_options initialHook
           [Debounced (Some (message 176 13 64))]))) <= 50 /\
  20 <= Synth.filter_frequency (Synth.params (state (Verbose.run plain_options initialHook
           [Debounced (Some (message 176 13 64))]))) <= 20000 /\
  0 <= Synth.filter_Q (Synth.params (state (Verbose.run plain_options initialHook
           [Debounced (Some (message 176 13 64))]))) <= 10 /\
  -12 <= Synth.filter_gain (Synth.params (state (Verbose.run plain_options initialHook
           [Debounced (Some (message 176 13 64))]))) <= 12 /\
  0 <= Synth.lfo_frequency (Synth.params (state (Verbose.run plain_options initialHook
           [Debounced (Some (message 176 13 64))]))) <= 20 /\
  0 <= Synth.lfo_amplitude (Synth.params (state (Verbose.run plain_options initialHook
           [Debounced (Some (message 176 13 64))]))) <= 1 /\
  0 <= Synth.distortion (Synth.params (state (Verbose.run plain_options initialHook
           [Debounced (Some (message 176 13 64))]))) <= 1 /\
  0 <= Synth.distortion_wet (Synth.params (state (Verbose.run plain_options initialHook
           [Debounced (Some (message 176 13 64))]))) <= 1 /\
  0 <= Synth.delay_delayTime (Synth.params (state (Verbose.run plain_options initialHook
           [Debounced (Some (message 176 13 64))]))) <= 1 /\
  0 <= Synth.delay_feedback (Synth.params (state (Verbose.run plain_options initialHook
           [Debounced (Some (message 176 13 64))]))) <= 1 /\
  0 <= Synth.delay_wet (Synth.params (state (Verbose.run plain_options initialHook
           [Debounced (Some (message 176 13 64))]))) <= 1 /\
  0 <= Synth.reverb_decay (Synth.params (state (Verbose.run plain_options initialHook
           [Debounced (Some (message 176 13 64))]))) <= 10 /\
  0 <= Synth.reverb_preDelay (Synth.params (state (Verbose.run plain_options initialHook
           [Debounced (Some (message 176 13 64))]))) <= / 10 /\
  0 <= Synth.reverb_wet (Synth.params (state (Verbose.run plain_options initialHook
           [Debounced (Some (message 176 13 64))]))) <= 1.
Proof.
  apply (synth_params_within_range plain_options
           [Debounced (Some (message 176 13 64))]
           (Verbose.run plain_options initialHook
              [Debounced (Some (message 176 13 64))])).
  - reflexivity.
  - repeat constructor; simpl; lia.
  - left. reflexivity.
Defined.

(** ** Subscription of the message handler *)

Lemma Subscription_run_cons (s : Subscription.Subscribed)
    (e : Subscription.SessionEvent) (es : list Subscription.SessionEvent) :
  Subscription.run s (e :: es) = Subscription.run (Subscription.step s e) es.
Proof. reflexivity. Qed.

Lemma receives_false (s : Subscription.Subscribed) (id : string) :
  Subscription.receives s id = false <-> id ∉ Subscription.handlers s.
Proof.
  unfold Subscription.receives. rewrite bool_decide_eq_false. reflexivity.
Qed.

Lemma handlers_granted (es : list Subscription.SessionEvent) :
  forall (s : Subscription.Subscribed) (id : string),
    id ∈ Subscription.handlers (Subscription.run s es) ->
    id ∈ Subscription.handlers s \/ In id (Subscription.granted_ids es).
Proof.
  induction es as [| e es IH]; intros s id Hid; [left; exact Hid | ].
  rewrite Subscription_run_cons in Hid.
  destruct (IH _ _ Hid) as [Hs | Hg].
  - destruct e as [[inputs | | port inputs | m | m] | ]; simpl in Hs;
      try (left; exact Hs).
    + apply elem_of_union in Hs as [Hs | Hs]; [left; exact Hs | ].
      right. simpl. apply in_or_app. left.
      apply list_elem_of_In. apply elem_of_list_to_set in Hs. exact Hs.
    + left. apply elem_of_difference in Hs as [Hs _]. exact Hs.
  - right. simpl. apply in_or_app. right. exact Hg.
Qed.

(** Only the inputs enumerated when the access was granted are ever
    subscribed: a port that was not among them, such as one plugged in
    later, never has its messages delivered to the hook, whatever state
    changes list it among the devices. *)
Theorem unsubscribed_unless_granted (es : list Subscription.SessionEvent)
    (id : string) :
  ~ In id (Subscription.granted_ids es) ->
  Subscription.receives (Subscription.run Subscription.initial es) id = false.
Proof.
  intros Hng. apply receives_false. intros Hid.
  apply handlers_granted in Hid as [He | Hg]; [ | contradiction].
  simpl in He. apply not_elem_of_empty in He. exact He.
Qed.

Lemma unsubscribed_unless_granted_witness :
  Subscription.receives
    (Subscription.run Subscription.initial
       [Subscription.Hooked (AccessGranted [plugged]);
        Subscription.Hooked (StateChange late_port [plugged; late_port])])
    "input-1" = false.
Proof.
  apply (unsubscribed_unless_granted
           [Subscription.Hooked (AccessGranted [plugged]);
            Subscription.Hooked (StateChange late_port [plugged; late_port])]
           "input-1").
  simpl. intros [H | []]. discriminate.
Defined.

Lemma run_without_grant (es : list Event) :
  Forall (fun e => forall inputs, e <> AccessGranted inputs) es ->
  forall s : Subscription.Subscribed,
    Subscription.run s (map Subscription.Hooked es) = s.
Proof.
  induction 1 as [| e es He Hes IH]; intros s; [reflexivity | ].
  simpl map. rewrite Subscription_run_cons.
  destruct e as [inputs | | port inputs | m | m];
    [exfalso; apply (He inputs); reflexivity | apply IH ..].
Qed.

(** The cleanup undoes the subscription: after the grant, any events other
    than a grant, and the cleanup, no port delivers messages to the hook any
    more; and running the cleanup a second time changes nothing. *)
Theorem cleanup_unsubscribes_all (inputs : list MIDIPort) (es : list Event)
    (id : string) :
  Forall (fun e => forall inputs', e <> AccessGranted inputs') es ->
  Subscription.receives
    (Subscription.run Subscription.initial
       (Subscription.Hooked (AccessGranted inputs)
          :: map Subscription.Hooked es ++ [Subscription.Cleanup])) id = false /\
  Subscription.run Subscription.initial
    (Subscription.Hooked (AccessGranted inputs)
       :: map Subscription.Hooked es
       ++ [Subscription.Cleanup; Subscription.Cleanup]) =
  Subscription.run Subscription.initial
    (Subscription.Hooked (AccessGranted inputs)
       :: map Subscription.Hooked es ++ [Subscription.Cleanup]).
Proof.
  intros Hes.
  rewrite !Subscription_run_cons. unfold Subscription.run at 1 2 3.
  rewrite !foldl_app. fold (Subscription.run
    (Subscription.step Subscription.initial
       (Subscription.Hooked (AccessGranted inputs))) (map Subscription.Hooked es)).
  rewrite (run_without_grant es Hes). simpl.
  split.
  - apply receives_false. simpl. intros Hid.
    apply elem_of_difference in Hid as [Hin Hout].
    apply elem_of_union in Hin as [Hin | Hin]; [ | contradiction].
    apply not_elem_of_empty in Hin. exact Hin.
  - unfold Subscription.cleanup; simpl. f_equal.
    apply leibniz_equiv. intros x. rewrite !elem_of_difference. tauto.
Qed.

Lemma cleanup_unsubscribes_all_witness :
  Subscription.receives
    (Subscription.run Subscription.initial
       (Subscription.Hooked (AccessGranted [plugged])
          :: map Subscription.Hooked [StateChange unplugged []; Message (message 176 13 64)]
          ++ [Subscription.Cleanup])) "input-0" = false /\
  Subscription.run Subscription.initial
    (Subscription.Hooked (AccessGranted [plugged])
       :: map Subscription.Hooked [StateChange unplugged []; Message (message 176 13 64)]
       ++ [Subscription.Cleanup; Subscription.Cleanup]) =
  Subscription.run Subscription.initial
    (Subscription.Hooked (AccessGranted [plugged])
       :: map Subscription.Hooked [StateChange unplugged []; Message (message 176 13 64)]
       ++ [Subscription.Cleanup]).
Proof.
  apply (cleanup_unsubscribes_all [plugged]
           [StateChange unplugged []; Message (message 176 13 64)] "input-0").
  repeat constructor; discriminate.
Defined.

(** A cleanup that runs before the access is granted unsubscribes nothing,
    and the grant that follows subscribes every input all the same: their
    messages are delivered although the cleanup has run. *)
Theorem grant_after_cleanup_subscribes (inputs : list MIDIPort) (id : string) :
  In id (map port_id inputs) ->
  Subscription.run Subscription.initial [Subscription.Cleanup] =
    Subscription.initial /\
  Subscription.receives
    (Subscription.run Subscription.initial
       [Subscription.Cleanup; Subscription.Hooked (AccessGranted inputs)]) id = true.
Proof.
  intros Hin. split.
  - unfold Subscription.run, Subscription.cleanup, Subscription.initial; simpl.
    f_equal; apply leibniz_equiv, difference_diag.
  - unfold Subscription.receives. apply bool_decide_eq_true. simpl.
    apply elem_of_union. right. apply elem_of_list_to_set.
    apply list_elem_of_In. exact Hin.
Qed.

Lemma grant_after_cleanup_subscribes_witness :
  Subscription.run Subscription.initial [Subscription.Cleanup] =
    Subscription.initial /\
  Subscription.receives
    (Subscription.run Subscription.initial
       [Subscription.Cleanup; Subscription.Hooked (AccessGranted [plugged])])
    "input-0" = true.
Proof.
  apply (grant_after_cleanup_subscribes [plugged] "input-0").
  simpl. left. reflexivity.
Defined.
